(** * datatypes.ipynb: column classification and summaries of the employee table

    The notebook builds one pandas [DataFrame] from a literal dictionary and
    then prints dtype listings, descriptive statistics, the columns selected
    by dtype, and value counts.  This development embeds the notebook cell
    by cell over a model of the pandas objects it manipulates, and states
    the properties of the specification over that embedding.

    Layout:
    - [Float]    : IEEE 754 arithmetic (binary64 and binary32) and the
                   fixed-point rendering of Python's [format(x, ',.2f')];
    - [Pandas]   : [Series], [DataFrame], [select_dtypes], the reductions
                   [min], [max], [mean], [median], [std], [quantile],
                   [describe], [value_counts], [nunique];
    - [Notebook] : the namespace, the standard output and the seven code
                   cells as state transformers;
    - the theorems. *)

From Stdlib Require Import ZArith NArith List String Ascii Bool Lia.
From Stdlib Require Import Sorted Permutation DecimalString.
From Stdlib Require Import SpecFloat.
Import ListNotations.

Local Open Scope string_scope.
Local Open Scope Z_scope.

(* ================================================================== *)
(** * Floating point *)
(* ================================================================== *)

Module Float.

(** numpy's two floating-point widths that the notebook names. *)
Inductive width := F32 | F64.

Definition prec (w : width) : Z := match w with F32 => 24 | F64 => 53 end.
Definition emax (w : width) : Z := match w with F32 => 128 | F64 => 1024 end.

Definition float := spec_float.

Definition nan : float := S754_nan.
Definition zero : float := S754_zero false.

Definition is_nan (x : float) : bool :=
  match x with S754_nan => true | _ => false end.

Definition add (w : width) : float -> float -> float := SFadd (prec w) (emax w).
Definition sub (w : width) : float -> float -> float := SFsub (prec w) (emax w).
Definition mul (w : width) : float -> float -> float := SFmul (prec w) (emax w).
Definition div (w : width) : float -> float -> float := SFdiv (prec w) (emax w).
Definition sqrt (w : width) : float -> float := SFsqrt (prec w) (emax w).

Definition ltb (x y : float) : bool := SFltb x y.
Definition leb (x y : float) : bool := SFleb x y.

(** Conversion of an integer, rounding to nearest even
    ([astype('f8')] on an integer array, [float(n)]). *)
Definition of_Z (w : width) (z : Z) : float :=
  binary_normalize (prec w) (emax w) z 0 false.

(** A decimal literal [n / 10^d] of the source text, correctly rounded:
    both operands are exact and IEEE division rounds once. *)
Definition lit (n : Z) (d : nat) : float :=
  div F64 (of_Z F64 n) (of_Z F64 (10 ^ Z.of_nat d)).

(** ** [format(x, '.Nf')] and [format(x, ',.Nf')] *)

(** Round-half-even quotient of two non-negative integers. *)
Definition div_half_even (a b : Z) : Z :=
  let q := a / b in
  let r := a mod b in
  match Z.compare (2 * r) b with
  | Lt => q
  | Gt => q + 1
  | Eq => if Z.even q then q else q + 1
  end.

(** The magnitude of a finite float scaled by [10^d] and rounded to an
    integer, half to even, from the exact binary value. *)
Definition scaled (d : nat) (m : positive) (e : Z) : Z :=
  let p := 10 ^ Z.of_nat d in
  if 0 <=? e then Zpos m * 2 ^ e * p
  else div_half_even (Zpos m * p) (2 ^ (- e)).

Definition digits (z : Z) : string :=
  NilEmpty.string_of_uint (N.to_uint (Z.to_N z)).

Definition nat_digits (z : Z) : string :=
  match z with Z0 => "0" | _ => digits z end.

Fixpoint zeros (n : nat) : string :=
  match n with O => "" | S n' => String "0" (zeros n') end.

(** Left padding with zeros to [d] characters. *)
Definition pad (d : nat) (s : string) : string :=
  zeros (d - String.length s) ++ s.

(** Thousands separators: a comma before every group of three digits
    counted from the right. *)
Fixpoint group3 (s : string) : string :=
  match s with
  | EmptyString => EmptyString
  | String c rest =>
      let tail := group3 rest in
      if andb (Nat.eqb (Nat.modulo (String.length rest) 3) 0)
              (negb (Nat.eqb (String.length rest) 0))
      then String c (String "," tail)
      else String c tail
  end.

Definition fixed_of_scaled (comma : bool) (d : nat) (neg : bool) (n : Z) : string :=
  let p := 10 ^ Z.of_nat d in
  let ip := nat_digits (n / p) in
  let ip := if comma then group3 ip else ip in
  let fp := match d with
            | O => ""
            | _ => "." ++ pad d (match n mod p with Z0 => "" | r => digits r end)
            end in
  (if neg then "-" else "") ++ ip ++ fp.

Definition format_f (comma : bool) (d : nat) (x : float) : string :=
  match x with
  | S754_nan => "nan"
  | S754_infinity s => if s then "-inf" else "inf"
  | S754_zero s => fixed_of_scaled comma d s 0
  | S754_finite s m e => fixed_of_scaled comma d s (scaled d m e)
  end.

End Float.

(* ================================================================== *)
(** * pandas objects *)
(* ================================================================== *)

Module Pandas.

Import Float.

(** ** Exceptions and results of fallible calls *)

(** A raised Python exception: its class name and its argument. *)
Record exn := mkExn { exn_class : string; exn_arg : string }.

Inductive outcome (A : Type) :=
| Ok (a : A)
| Raise (e : exn).
Arguments Ok {A} a.
Arguments Raise {A} e.

Definition KeyError (k : string) : exn := mkExn "KeyError" k.
Definition NameError (n : string) : exn := mkExn "NameError" n.
Definition ValueError (m : string) : exn := mkExn "ValueError" m.

(** ** Arrays, Series, DataFrame *)

Inductive int_width := I8 | I16 | I32 | I64.

(** dtypes whose cells are carried but not interpreted here: each cell is
    an opaque payload.  [RObject] is an [object] column holding Python
    objects other than [str] (lists, dicts, big integers). *)
Inductive raw_dtype := RBool | RDatetime64 | RUInt64 | RObject.

Inductive array :=
| IntArray (w : int_width) (l : list Z)
| FloatArray (w : width) (l : list float)
| ObjectArray (l : list string)
| RawArray (d : raw_dtype) (cells : list Z).

Record Series := mkSeries { name : string; values : array }.

(** Columns in insertion order. *)
Definition DataFrame := list Series.

Definition size (a : array) : nat :=
  match a with
  | IntArray _ l => List.length l
  | FloatArray _ l => List.length l
  | ObjectArray l => List.length l
  | RawArray _ l => List.length l
  end.

(** [a.dtype.name] *)
Definition dtype (a : array) : string :=
  match a with
  | IntArray I8 _ => "int8"
  | IntArray I16 _ => "int16"
  | IntArray I32 _ => "int32"
  | IntArray I64 _ => "int64"
  | FloatArray F32 _ => "float32"
  | FloatArray F64 _ => "float64"
  | ObjectArray _ => "object"
  | RawArray RBool _ => "bool"
  | RawArray RDatetime64 _ => "datetime64[ns]"
  | RawArray RUInt64 _ => "uint64"
  | RawArray RObject _ => "object"
  end.

(** [df.columns.tolist()] *)
Definition columns (df : DataFrame) : list string := map name df.

(** [df.dtypes] *)
Definition dtypes (df : DataFrame) : list (string * string) :=
  map (fun s => (name s, dtype (values s))) df.

(** [df.shape] *)
Definition shape (df : DataFrame) : nat * nat :=
  (match df with [] => O | s :: _ => size (values s) end, List.length df).

Definition mem (x : string) (l : list string) : bool :=
  existsb (String.eqb x) l.

Fixpoint distinct (l : list string) : bool :=
  match l with
  | [] => true
  | x :: r => negb (mem x r) && distinct r
  end.

Definition rectangular (df : DataFrame) : bool :=
  match df with
  | [] => true
  | s :: r => forallb (fun t => Nat.eqb (size (values t)) (size (values s))) r
  end.

(** A table in the sense of the data model: a mapping from column names to
    columns (no name twice) whose columns all have the same length. *)
Definition well_formed (df : DataFrame) : Prop :=
  distinct (columns df) = true /\ rectangular df = true.

(** ** [select_dtypes] *)

(** [df.select_dtypes(include=...)]: the sub-frame of the columns whose
    dtype is one of the included ones, in the frame's order. *)
Definition select_dtypes (include : list string) (df : DataFrame) : DataFrame :=
  filter (fun s => mem (dtype (values s)) include) df.

(** [df[key]] on a frame whose column names are distinct, as those of a frame
    built from a dictionary are: the column of that name, or [KeyError]. *)
Fixpoint getitem (df : DataFrame) (key : string) : outcome Series :=
  match df with
  | [] => Raise (KeyError key)
  | s :: rest => if String.eqb (name s) key then Ok s else getitem rest key
  end.

(** ** Scalars returned by reductions *)

Inductive scalar :=
| SInt (w : int_width) (z : Z)
| SFloat (w : width) (x : float)
| SStr (s : string)
| SOther (repr : string).

Definition bits (w : int_width) : Z :=
  match w with I8 => 8 | I16 => 16 | I32 => 32 | I64 => 64 end.

(** Two's complement wrap-around of a signed integer of width [w]. *)
Definition wrap (w : int_width) (z : Z) : Z :=
  (z + 2 ^ (bits w - 1)) mod 2 ^ bits w - 2 ^ (bits w - 1).

(** ** Numeric kernels (numpy / pandas.core.nanops) *)

(** [skipna=True]: the rows that are not missing. *)
Definition dropna (l : list float) : list float :=
  filter (fun x => negb (is_nan x)) l.

(** The array with its missing values replaced by zero: [nanmean] and
    [nanvar] sum the whole array in this form. *)
Definition fillna0 (l : list float) : list float :=
  map (fun x => if is_nan x then zero else x) l.

(** Minimum and maximum of the valid rows; of two equal elements the later
    one is kept; an array with no valid value gives NaN. *)
Definition nanmin (l : list float) : float :=
  match dropna l with
  | [] => nan
  | x :: r => fold_left (fun acc y => if ltb acc y then acc else y) r x
  end.

Definition nanmax (l : list float) : float :=
  match dropna l with
  | [] => nan
  | x :: r => fold_left (fun acc y => if ltb y acc then acc else y) r x
  end.

Definition int_min (w : int_width) (l : list Z) : scalar :=
  match l with
  | [] => SFloat F64 nan
  | x :: r => SInt w (fold_left Z.min r x)
  end.

Definition int_max (w : int_width) (l : list Z) : scalar :=
  match l with
  | [] => SFloat F64 nan
  | x :: r => SInt w (fold_left Z.max r x)
  end.

(** *** numpy's pairwise summation

    Fewer than 8 elements are added from left to right.  A block of 8 to
    128 elements is added in eight interleaved lanes that are combined
    pairwise, and the elements after the last full group of eight are
    added to the result.  A longer array is cut in two at a multiple of
    eight near its middle and the sums of the halves are added. *)

Fixpoint lanes (w : width) (acc l : list float) : list float * list float :=
  match l with
  | a0 :: a1 :: a2 :: a3 :: a4 :: a5 :: a6 :: a7 :: rest =>
      lanes w (map (fun p => add w (fst p) (snd p))
                   (combine acc [a0; a1; a2; a3; a4; a5; a6; a7])) rest
  | _ => (acc, l)
  end.

Definition block_sum (w : width) (l : list float) : float :=
  match l with
  | a0 :: a1 :: a2 :: a3 :: a4 :: a5 :: a6 :: a7 :: rest =>
      match lanes w [a0; a1; a2; a3; a4; a5; a6; a7] rest with
      | ([r0; r1; r2; r3; r4; r5; r6; r7], tail) =>
          fold_left (add w) tail
            (add w (add w (add w r0 r1) (add w r2 r3))
                   (add w (add w r4 r5) (add w r6 r7)))
      | _ => nan
      end
  | _ => fold_left (add w) l zero
  end.

Fixpoint pairwise_sum (fuel : nat) (w : width) (l : list float) : float :=
  let n := List.length l in
  if Nat.leb n 128 then block_sum w l
  else
    match fuel with
    | O => block_sum w l
    | S fuel' =>
        let n2 := (n / 2 - (n / 2) mod 8)%nat in
        add w (pairwise_sum fuel' w (firstn n2 l))
              (pairwise_sum fuel' w (skipn n2 l))
    end.

(** [a.sum()]: the reduction starts from the identity 0 and adds the
    pairwise sum of the array.  The length is fuel enough: every cut
    makes both halves shorter. *)
Definition sum (w : width) (l : list float) : float :=
  add w zero (pairwise_sum (List.length l) w l).

(** The sum from left to right, for comparison. *)
Definition sum_sequential (w : width) (l : list float) : float :=
  fold_left (add w) l zero.

(** The number of valid rows. *)
Definition count (w : width) (l : list float) : float :=
  of_Z w (Z.of_nat (List.length (dropna l))).

(** [nanmean]: the zero-filled array is summed and divided by the number
    of valid rows; [the_mean = the_sum / count if count > 0 else np.nan]. *)
Definition nanmean (w : width) (l : list float) : float :=
  match dropna l with
  | [] => nan
  | _ => div w (sum w (fillna0 l)) (count w l)
  end.

Fixpoint insert (x : float) (l : list float) : list float :=
  match l with
  | [] => [x]
  | y :: r => if ltb x y then x :: l else y :: insert x r
  end.

Definition sort (l : list float) : list float :=
  fold_left (fun acc x => insert x acc) l [].

(** Median of the valid rows: the middle order statistic, or the mean of
    the two middle ones. *)
Definition nanmedian (w : width) (l : list float) : float :=
  let s := sort (dropna l) in
  let n := List.length s in
  match n with
  | O => nan
  | _ =>
      if Nat.even n
      then div w (add w (nth (n / 2 - 1) s nan) (nth (n / 2) s nan)) (of_Z w 2)
      else nth (n / 2) s nan
  end.

(** [nanvar]: two-pass variance with [ddof] delta degrees of freedom,
    accumulated in binary64 over the zero-filled array, the squared
    deviations of the missing rows set to zero; NaN when
    [count <= ddof]. *)
Definition nanvar (ddof : Z) (l : list float) : float :=
  let n := Z.of_nat (List.length (dropna l)) in
  if n <=? ddof then nan
  else
    let avg := div F64 (sum F64 (fillna0 l)) (of_Z F64 n) in
    let sqr := map (fun x => if is_nan x then zero
                             else let d := sub F64 avg x in mul F64 d d) l in
    div F64 (sum F64 sqr) (of_Z F64 (n - ddof)).

(** [Series.std()]: [ddof=1] is the default. *)
Definition nanstd (l : list float) : float := sqrt F64 (nanvar 1 l).

(** numpy's [_lerp]. *)
Definition lerp (a b t : float) : float :=
  let diff := sub F64 b a in
  if leb (lit 5 1) t
  then sub F64 b (mul F64 diff (sub F64 (of_Z F64 1) t))
  else add F64 a (mul F64 diff t).

(** The quantile [k/4] of the valid rows by linear interpolation between
    the order statistics around position [(n - 1) * k / 4]. *)
Definition quartile (k : Z) (l : list float) : float :=
  let s := sort (dropna l) in
  match s with
  | [] => nan
  | _ =>
      let pos := (Z.of_nat (List.length s) - 1) * k in
      let i := Z.to_nat (pos / 4) in
      let t := div F64 (of_Z F64 (pos mod 4)) (of_Z F64 4) in
      let lo := nth i s nan in
      lerp lo (nth (S i) s lo) t
  end.

(** ** Counting kernels (pandas.core.algorithms) *)

(** One more occurrence of [k] in a table of counts kept in order of first
    appearance. *)
Fixpoint bump (k : string) (acc : list (string * nat)) : list (string * nat) :=
  match acc with
  | [] => [(k, 1%nat)]
  | (k', n) :: rest =>
      if String.eqb k k' then (k', S n) :: rest else (k', n) :: bump k rest
  end.

(** [value_counts_arraylike]: the distinct values with their counts, in
    order of first appearance. *)
Definition tally (l : list string) : list (string * nat) :=
  fold_left (fun acc k => bump k acc) l [].

(** [Series.nunique()] on a column of text: [len(unique(values))]. *)
Definition nunique_object (l : list string) : nat :=
  List.length (tally l).

(** *** Arrangements by ascending count *)

(** Stable insertion into a list ordered by ascending count: the new entry
    goes after the entries of equal count. *)
Fixpoint insert_count (x : string * nat) (l : list (string * nat))
  : list (string * nat) :=
  match l with
  | [] => [x]
  | y :: r => if Nat.ltb (snd x) (snd y) then x :: l else y :: insert_count x r
  end.

(** The insertion sort, which keeps the entries of equal count in their
    order. *)
Definition insertion_sort (l : list (string * nat)) : list (string * nat) :=
  fold_left (fun acc x => insert_count x acc) l [].

(** Insertion before the entries of equal count, and the sort built on it,
    which reverses the entries of equal count: one of the orders that a
    sort which is not stable may give. *)
Fixpoint insert_count_before (x : string * nat) (l : list (string * nat))
  : list (string * nat) :=
  match l with
  | [] => [x]
  | y :: r =>
      if Nat.leb (snd x) (snd y) then x :: l else y :: insert_count_before x r
  end.

Definition reversing_sort (l : list (string * nat)) : list (string * nat) :=
  fold_left (fun acc x => insert_count_before x acc) l [].

Definition entry_eqb (a b : string * nat) : bool :=
  String.eqb (fst a) (fst b) && Nat.eqb (snd a) (snd b).

(** [l] without its first occurrence of [x], if it has one. *)
Fixpoint remove_first (x : string * nat) (l : list (string * nat))
  : option (list (string * nat)) :=
  match l with
  | [] => None
  | y :: r =>
      if entry_eqb x y then Some r
      else option_map (cons y) (remove_first x r)
  end.

(** [r] holds the entries of [l], each as often. *)
Fixpoint same_entries (l r : list (string * nat)) : bool :=
  match l with
  | [] => match r with [] => true | _ => false end
  | x :: l' =>
      match remove_first x r with
      | Some r' => same_entries l' r'
      | None => false
      end
  end.

Fixpoint is_ascending (l : list (string * nat)) : bool :=
  match l with
  | [] => true
  | x :: r =>
      match r with
      | [] => true
      | y :: _ => Nat.leb (snd x) (snd y) && is_ascending r
      end
  end.

(** ** The table printed by [describe] *)

Record Describe := mkDescribe {
  describe_index : list string;
  describe_columns : list (string * list scalar)
}.

Definition numeric_index : list string :=
  ["count"; "mean"; "std"; "min"; "25%"; "50%"; "75%"; "max"].

(** [describe_numeric_1d] *)
Definition describe_numeric_1d (l : list float) : list scalar :=
  map (SFloat F64)
    [count F64 l; nanmean F64 l; nanstd l; nanmin l;
     quartile 1 l; quartile 2 l; quartile 3 l; nanmax l].

(** ** Behaviour of pandas that is not interpreted

    Reductions on text and on raw columns, counts of values of columns
    that are not text, [std] and [describe] on binary32 columns, the
    description of a frame without numeric columns, the formatting of
    scalars that are not numbers, and the order in which the sort of
    [sort_values] leaves entries of equal count are left to the library.
    The notebook is verified for every behaviour the library may have
    there. *)

Record Rest := mkRest {
  rest_reduce : string -> Series -> outcome scalar;
  rest_value_counts : Series -> outcome (list (scalar * nat));
  rest_nunique : Series -> outcome nat;
  rest_describe : DataFrame -> outcome Describe;
  rest_format : bool -> nat -> scalar -> outcome string;
  rest_sub : scalar -> scalar -> outcome scalar;
  rest_argsort : list (string * nat) -> list (string * nat)
}.

(** ** [value_counts] *)

(** [argsort], numpy's default sort ([kind='quicksort']), by ascending
    count.  It is not stable: the arrangement of the entries of equal
    count is the library's, [rest_argsort], and is taken whenever it is an
    ascending arrangement of the input (otherwise the insertion sort
    stands in).  A short array (up to 16 entries) that is ascending already
    is returned as it is; the three recorded tables come from such
    arrays. *)
Definition argsort (rest : Rest) (l : list (string * nat)) : list (string * nat) :=
  if Nat.leb (List.length l) 16 && is_ascending l then l
  else
    let r := rest_argsort rest l in
    if is_ascending r && same_entries l r then r else insertion_sort l.

(** [sort_values(ascending=False)]: [nargsort] reverses the data, sorts it
    ascending and reverses the result. *)
Definition sort_values_descending (rest : Rest) (l : list (string * nat))
  : list (string * nat) :=
  rev (argsort rest (rev l)).

(** [Series.value_counts()] on a column of text: the counts in order of
    first appearance, sorted by descending count. *)
Definition value_counts_object (rest : Rest) (l : list string) : list (string * nat) :=
  sort_values_descending rest (tally l).

(** ** Methods of [Series] and [DataFrame] *)

Section Methods.

Variable rest : Rest.

(** [s.min()] *)
Definition Series_min (s : Series) : outcome scalar :=
  match values s with
  | IntArray w l => Ok (int_min w l)
  | FloatArray w l => Ok (SFloat w (nanmin l))
  | _ => rest_reduce rest "min" s
  end.

(** [s.max()] *)
Definition Series_max (s : Series) : outcome scalar :=
  match values s with
  | IntArray w l => Ok (int_max w l)
  | FloatArray w l => Ok (SFloat w (nanmax l))
  | _ => rest_reduce rest "max" s
  end.

(** [s.mean()]: integers are summed in binary64, floats in their own
    width, missing values counting as zero in the sum. *)
Definition Series_mean (s : Series) : outcome scalar :=
  match values s with
  | IntArray _ l => Ok (SFloat F64 (nanmean F64 (map (of_Z F64) l)))
  | FloatArray w l => Ok (SFloat w (nanmean w l))
  | _ => rest_reduce rest "mean" s
  end.

(** [s.median()] *)
Definition Series_median (s : Series) : outcome scalar :=
  match values s with
  | IntArray _ l => Ok (SFloat F64 (nanmedian F64 (map (of_Z F64) l)))
  | FloatArray w l => Ok (SFloat w (nanmedian w l))
  | _ => rest_reduce rest "median" s
  end.

(** [s.std()] *)
Definition Series_std (s : Series) : outcome scalar :=
  match values s with
  | IntArray _ l => Ok (SFloat F64 (nanstd (map (of_Z F64) l)))
  | FloatArray F64 l => Ok (SFloat F64 (nanstd l))
  | _ => rest_reduce rest "std" s
  end.

(** [s.value_counts()] *)
Definition Series_value_counts (s : Series) : outcome (list (scalar * nat)) :=
  match values s with
  | ObjectArray l =>
      Ok (map (fun kn => (SStr (fst kn), snd kn)) (value_counts_object rest l))
  | _ => rest_value_counts rest s
  end.

(** [s.nunique()] *)
Definition Series_nunique (s : Series) : outcome nat :=
  match values s with
  | ObjectArray l => Ok (nunique_object l)
  | _ => rest_nunique rest s
  end.

(** The rows, as floats, of a column that [describe] treats as numeric and
    whose arithmetic is interpreted. *)
Definition numeric_values (a : array) : option (list float) :=
  match a with
  | IntArray _ l => Some (map (of_Z F64) l)
  | FloatArray F64 l => Some l
  | _ => None
  end.

Definition interpreted (a : array) : bool :=
  match a with
  | IntArray _ _ | FloatArray F64 _ | ObjectArray _ => true
  | _ => false
  end.

Definition describe_numeric (df : DataFrame) : list (string * list scalar) :=
  flat_map (fun s => match numeric_values (values s) with
                     | Some l => [(name s, describe_numeric_1d l)]
                     | None => []
                     end) df.

(** [df.describe()]: a frame without columns is rejected; when the frame
    has numeric columns, they alone are described. *)
Definition describe (df : DataFrame) : outcome Describe :=
  match df with
  | [] => Raise (ValueError "Cannot describe a DataFrame without columns")
  | _ =>
      if forallb (fun s => interpreted (values s)) df then
        match describe_numeric df with
        | [] => rest_describe rest df
        | cols => Ok (mkDescribe numeric_index cols)
        end
      else rest_describe rest df
  end.

(** [format(x, ',.Nf')] and [format(x, '.Nf')] on a scalar: an integer
    is converted to a float first. *)
Definition format_scalar (comma : bool) (d : nat) (x : scalar) : outcome string :=
  match x with
  | SInt _ z => Ok (format_f comma d (of_Z F64 z))
  | SFloat _ f => Ok (format_f comma d f)
  | _ => rest_format rest comma d x
  end.

Definition int_width_eqb (a b : int_width) : bool :=
  match a, b with
  | I8, I8 | I16, I16 | I32, I32 | I64, I64 => true
  | _, _ => false
  end.

Definition width_eqb (a b : width) : bool :=
  match a, b with
  | F32, F32 | F64, F64 => true
  | _, _ => false
  end.

(** [a - b] on two numpy scalars of the same type: integers wrap around
    at their width, floats round at theirs. *)
Definition scalar_sub (a b : scalar) : outcome scalar :=
  match a, b with
  | SInt w x, SInt w' y =>
      if int_width_eqb w w' then Ok (SInt w (wrap w (x - y))) else rest_sub rest a b
  | SFloat w x, SFloat w' y =>
      if width_eqb w w' then Ok (SFloat w (sub w x y)) else rest_sub rest a b
  | _, _ => rest_sub rest a b
  end.

End Methods.

(** ** [pd.DataFrame(data)] on a dictionary of lists *)

(** A Python list literal of integers, of floats or of strings. *)
Inductive pylist :=
| PyInts (l : list Z)
| PyFloats (l : list float)
| PyStrs (l : list string).

(** A dictionary literal with distinct keys, in insertion order. *)
Definition dict := list (string * pylist).

Definition pylen (l : pylist) : nat :=
  match l with
  | PyInts l => List.length l
  | PyFloats l => List.length l
  | PyStrs l => List.length l
  end.

Definition fits_int64 (z : Z) : bool := (- 2 ^ 63 <=? z) && (z <? 2 ^ 63).
Definition fits_uint64 (z : Z) : bool := (0 <=? z) && (z <? 2 ^ 64).

(** dtype inference: integers become [int64] when they all fit, floats
    [float64], strings [object]; an empty list carries no element type
    and becomes an empty [float64] column. *)
Definition array_of_pylist (l : pylist) : array :=
  match l with
  | PyInts [] | PyFloats [] | PyStrs [] => FloatArray F64 []
  | PyInts l =>
      if forallb fits_int64 l then IntArray I64 l
      else if forallb fits_uint64 l then RawArray RUInt64 l
      else RawArray RObject l
  | PyFloats l => FloatArray F64 l
  | PyStrs l => ObjectArray l
  end.

Definition same_length (d : dict) : bool :=
  match d with
  | [] => true
  | (_, l) :: rest => forallb (fun kv => Nat.eqb (pylen (snd kv)) (pylen l)) rest
  end.

Definition DataFrame_of_dict (d : dict) : outcome DataFrame :=
  if same_length d
  then Ok (map (fun kv => mkSeries (fst kv) (array_of_pylist (snd kv))) d)
  else Raise (ValueError "All arrays must be of the same length").

End Pandas.

(* ================================================================== *)
(** * The notebook *)
(* ================================================================== *)

Module Notebook.

Import Float Pandas.

(** ** Standard output *)

(** What one [print] call writes.  Text is kept as text; an object that
    pandas or Python renders through its [repr] is kept as the object. *)
Inductive fragment :=
| Text (s : string)
| OfFrame (d : DataFrame)
| OfDtypes (d : list (string * string))
| OfDescribe (d : Describe)
| OfCounts (c : list (scalar * nat))
| OfList (l : list string)
| OfShape (shape : nat * nat)
| OfScalar (x : scalar)
| OfInt (n : nat).

Definition line := list fragment.

(** ** Global namespace *)

Record namespace := mkNamespace {
  employee_data : option dict;
  df : option DataFrame;
  discrete_cols : option (list string);
  continuous_cols : option (list string);
  categorical_cols : option (list string);
  dept_counts : option (list (scalar * nat))
}.

Record state := mkState { globals : namespace; stdout : list line }.

Definition empty_namespace : namespace :=
  mkNamespace None None None None None None.

Definition initial : state := mkState empty_namespace [].

(** ** Statements: state, output and exceptions *)

Definition NB (A : Type) : Type := state -> outcome A * state.

Definition ret {A} (a : A) : NB A := fun st => (Ok a, st).

Definition bind {A B} (m : NB A) (k : A -> NB B) : NB B :=
  fun st =>
    match m st with
    | (Ok a, st') => k a st'
    | (Raise e, st') => (Raise e, st')
    end.

Definition call {A} (o : outcome A) : NB A := fun st => (o, st).

Definition print (l : line) : NB unit :=
  fun st => (Ok tt, mkState (globals st) (stdout st ++ [l])).

Definition assign (f : namespace -> namespace) : NB unit :=
  fun st => (Ok tt, mkState (f (globals st)) (stdout st)).

(** Reading a global name: unbound names raise [NameError]. *)
Definition load {A} (var : namespace -> option A) (id : string) : NB A :=
  fun st =>
    match var (globals st) with
    | Some v => (Ok v, st)
    | None => (Raise (NameError id), st)
    end.

Definition load_df : NB DataFrame := load df "df".

Notation "x <- m ;; k" := (bind m (fun x => k))
  (at level 61, m at next level, right associativity).
Notation "m ;; k" := (bind m (fun _ => k))
  (at level 61, right associativity).

Definition set_employee_data (v : dict) (ns : namespace) : namespace :=
  mkNamespace (Some v) (df ns) (discrete_cols ns) (continuous_cols ns)
              (categorical_cols ns) (dept_counts ns).
Definition set_df (v : DataFrame) (ns : namespace) : namespace :=
  mkNamespace (employee_data ns) (Some v) (discrete_cols ns) (continuous_cols ns)
              (categorical_cols ns) (dept_counts ns).
Definition set_discrete_cols (v : list string) (ns : namespace) : namespace :=
  mkNamespace (employee_data ns) (df ns) (Some v) (continuous_cols ns)
              (categorical_cols ns) (dept_counts ns).
Definition set_continuous_cols (v : list string) (ns : namespace) : namespace :=
  mkNamespace (employee_data ns) (df ns) (discrete_cols ns) (Some v)
              (categorical_cols ns) (dept_counts ns).
Definition set_categorical_cols (v : list string) (ns : namespace) : namespace :=
  mkNamespace (employee_data ns) (df ns) (discrete_cols ns) (continuous_cols ns)
              (Some v) (dept_counts ns).
Definition set_dept_counts (v : list (scalar * nat)) (ns : namespace) : namespace :=
  mkNamespace (employee_data ns) (df ns) (discrete_cols ns) (continuous_cols ns)
              (categorical_cols ns) (Some v).

(** The characters written [\n] and [\t] in the source. *)
Definition nl : string := String (ascii_of_nat 10) "".
Definition tab : string := String (ascii_of_nat 9) "".

Fixpoint times (s : string) (n : nat) : string :=
  match n with O => "" | S n' => (s ++ times s n')%string end.

(** ** Cell 1: the literal data and the frame *)

Definition employee_literal : dict :=
  [ ("employee_id",
     PyInts [1001; 1002; 1003; 1004; 1005; 1006; 1007; 1008; 1009; 1010]);
    ("name",
     PyStrs ["Alice Johnson"; "Bob Smith"; "Carol Davis"; "David Wilson";
             "Eva Brown"; "Frank Miller"; "Grace Chen"; "Henry Taylor";
             "Iris Garcia"; "Jack Anderson"]);
    ("department",
     PyStrs ["Engineering"; "Marketing"; "Engineering"; "Sales"; "HR";
             "Engineering"; "Marketing"; "Sales"; "Finance"; "Engineering"]);
    ("years_experience", PyInts [5; 8; 3; 12; 7; 2; 6; 15; 4; 9]);
    ("salary",
     PyFloats [lit 7500050 2; lit 8200075 2; lit 6800000 2; lit 9500025 2;
               lit 7100080 2; lit 6200000 2; lit 7800030 2; lit 10500000 2;
               lit 7300060 2; lit 8700090 2]);
    ("education_level",
     PyStrs ["Bachelor"; "Master"; "Bachelor"; "Master"; "Bachelor";
             "Bachelor"; "PhD"; "Master"; "Bachelor"; "Master"]);
    ("performance_rating",
     PyStrs ["Good"; "Excellent"; "Average"; "Excellent"; "Good";
             "Average"; "Excellent"; "Excellent"; "Good"; "Good"]) ].

Definition cell1 : NB unit :=
  assign (set_employee_data employee_literal) ;;
  data <- load employee_data "employee_data" ;;
  frame <- call (DataFrame_of_dict data) ;;
  assign (set_df frame) ;;
  print [Text "Employee Dataset:"] ;;
  d <- load_df ;;
  print [OfFrame d] ;;
  d <- load_df ;;
  print [Text (nl ++ "Dataset Shape: "); OfShape (shape d)] ;;
  d <- load_df ;;
  print [Text "Columns: "; OfList (columns d)].

Section Cells.

Variable rest : Rest.

(** [df[key].method()] *)
Definition column {A} (key : string) (method : Series -> outcome A) : NB A :=
  d <- load_df ;;
  s <- call (getitem d key) ;;
  call (method s).

(** ** Cell 2: dtypes and descriptive statistics *)

Definition cell2 : NB unit :=
  print [Text "Data Types in our Dataset:"] ;;
  d <- load_df ;;
  print [OfDtypes (dtypes d)] ;;
  print [Text (nl ++ times "=" 50)] ;;
  print [Text (nl ++ "Descriptive Statistics for Numerical Columns:")] ;;
  d <- load_df ;;
  r <- call (describe rest d) ;;
  print [OfDescribe r].

(** ** Cell 3: columns by dtype *)

Definition cell3 : NB unit :=
  print [Text "Extracting columns by data type:"] ;;
  d <- load_df ;;
  assign (set_discrete_cols (columns (select_dtypes ["int64"; "int32"] d))) ;;
  v <- load discrete_cols "discrete_cols" ;;
  print [Text "Discrete (int) columns: "; OfList v] ;;
  d <- load_df ;;
  assign (set_continuous_cols (columns (select_dtypes ["float64"; "float32"] d))) ;;
  v <- load continuous_cols "continuous_cols" ;;
  print [Text "Continuous (float) columns: "; OfList v] ;;
  d <- load_df ;;
  assign (set_categorical_cols (columns (select_dtypes ["object"] d))) ;;
  v <- load categorical_cols "categorical_cols" ;;
  print [Text "Categorical (string/object) columns: "; OfList v].

(** ** Cell 4: discrete data *)

Definition cell4 : NB unit :=
  print [Text (nl ++ "Years of Experience Statistics:")] ;;
  lo <- column "years_experience" (Series_min rest) ;;
  hi <- column "years_experience" (Series_max rest) ;;
  print [Text (tab ++ "Range: "); OfScalar lo; Text " to "; OfScalar hi;
         Text " years"] ;;
  m <- column "years_experience" (Series_mean rest) ;;
  avg <- call (format_scalar rest false 1 m) ;;
  print [Text (tab ++ "Average: " ++ avg ++ " years")].

(** ** Cell 5: continuous data *)

Definition cell5 : NB unit :=
  print [Text "Continuous Data Analysis:"] ;;
  print [Text (nl ++ "Salary Statistics:")] ;;
  lo <- column "salary" (Series_min rest) ;;
  t <- call (format_scalar rest true 2 lo) ;;
  print [Text (tab ++ "Minimum Salary: $" ++ t)] ;;
  hi <- column "salary" (Series_max rest) ;;
  t <- call (format_scalar rest true 2 hi) ;;
  print [Text (tab ++ "Maximum Salary: $" ++ t)] ;;
  m <- column "salary" (Series_mean rest) ;;
  t <- call (format_scalar rest true 2 m) ;;
  print [Text (tab ++ "Average Salary: $" ++ t)] ;;
  m <- column "salary" (Series_median rest) ;;
  t <- call (format_scalar rest true 2 m) ;;
  print [Text (tab ++ "Median Salary: $" ++ t)] ;;
  hi <- column "salary" (Series_max rest) ;;
  lo <- column "salary" (Series_min rest) ;;
  r <- call (scalar_sub rest hi lo) ;;
  t <- call (format_scalar rest true 2 r) ;;
  print [Text (tab ++ "Salary Range: $" ++ t)].

(** ** Cell 6: nominal data *)

Definition cell6 : NB unit :=
  print [Text "Nominal Categorical Data Analysis:"] ;;
  print [Text (nl ++ "Department Distribution:")] ;;
  c <- column "department" (Series_value_counts rest) ;;
  assign (set_dept_counts c) ;;
  v <- load dept_counts "dept_counts" ;;
  print [OfCounts v] ;;
  n <- column "department" (Series_nunique rest) ;;
  print [Text "Number of unique departments: "; OfInt n].

(** ** Cell 7: ordinal data *)

Definition cell7 : NB unit :=
  print [Text "Ordinal Categorical Data Analysis:"] ;;
  print [Text (nl ++ "Education Level Distribution:")] ;;
  c <- column "education_level" (Series_value_counts rest) ;;
  print [OfCounts c] ;;
  print [Text (nl ++ "Performance Rating Distribution:")] ;;
  c <- column "performance_rating" (Series_value_counts rest) ;;
  print [OfCounts c] ;;
  n <- column "education_level" (Series_nunique rest) ;;
  print [Text (nl ++ "Unique Education Levels: "); OfInt n] ;;
  n <- column "performance_rating" (Series_nunique rest) ;;
  print [Text "Unique Performance Ratings: "; OfInt n].

End Cells.

(** ** The operations of the specification

    [classify] is cell 3 and leaves its three buckets in the namespace;
    [summarizeNumeric] is the salary cell; [summarizeCategorical] is the
    pair [value_counts] / [nunique] of cells 6 and 7; [describeTable] is
    the dtype listing and [describe] of cell 2 followed by the
    classification. *)

Definition classify : NB unit := cell3.

Definition summarizeNumeric (rest : Rest) : NB unit := cell5 rest.

Definition summarizeCategorical (rest : Rest) (l : list string)
  : list (string * nat) * nat :=
  (value_counts_object rest l, nunique_object l).

Definition describeTable (rest : Rest) : NB unit := cell2 rest ;; cell3.

(** The buckets found in the namespace. *)
Definition classified (st : state) (D C K : list string) : Prop :=
  discrete_cols (globals st) = Some D /\
  continuous_cols (globals st) = Some C /\
  categorical_cols (globals st) = Some K.

(** The dtypes that some bucket of cell 3 includes. *)
Definition supported (t : string) : bool :=
  mem t ["int64"; "int32"] || mem t ["float64"; "float32"] || mem t ["object"].

(** The tests that the three [select_dtypes] calls apply to a column. *)
Definition is_discrete (s : Series) : bool :=
  mem (dtype (values s)) ["int64"; "int32"].
Definition is_continuous (s : Series) : bool :=
  mem (dtype (values s)) ["float64"; "float32"].
Definition is_categorical (s : Series) : bool :=
  mem (dtype (values s)) ["object"].

(** Columns of integers, of floats or of text. *)
Definition primitive (a : array) : bool :=
  match a with
  | IntArray _ _ | FloatArray _ _ | ObjectArray _ => true
  | RawArray _ _ => false
  end.

(** Integer and floating-point columns, of any width. *)
Definition numeric (a : array) : bool :=
  match a with
  | IntArray _ _ | FloatArray _ _ => true
  | _ => false
  end.

Definition is_nan_scalar (x : scalar) : bool :=
  match x with
  | SFloat _ f => is_nan f
  | _ => false
  end.

(** A cell of the [describe] table at the six decimals of the display. *)
Definition six (x : scalar) : string :=
  match x with
  | SFloat _ f => format_f false 6 f
  | SInt _ z => format_f false 6 (of_Z F64 z)
  | SStr t => t
  | SOther t => t
  end.

(** The standard deviation of a numeric column with divisor [n - ddof],
    at six decimals. *)
Definition std_with (ddof : Z) (s : Series) : option string :=
  option_map (fun l => format_f false 6 (sqrt F64 (nanvar ddof l)))
             (numeric_values (values s)).

Definition shown (r : Describe) : list (string * list string) :=
  map (fun c => (fst c, map six (snd c))) (describe_columns r).

(** The distinct values of a column in the order in which they first
    appear. *)
Fixpoint first_seen (l : list string) : list string :=
  match l with
  | [] => []
  | x :: r => x :: filter (fun y => negb (String.eqb x y)) (first_seen r)
  end.

(** The number of rows holding [k]. *)
Definition occurrences (l : list string) (k : string) : nat :=
  count_occ string_dec l k.

(** Orders on the entries of a table of counts, and the entries of a given
    count. *)
Definition ascending (a b : string * nat) : Prop := (snd a <= snd b)%nat.
Definition descending (a b : string * nat) : Prop := (snd b <= snd a)%nat.
Definition has (n : nat) (e : string * nat) : bool := Nat.eqb (snd e) n.

(** A state in which [df] is bound to [d] and nothing else is. *)
Definition with_df (d : DataFrame) : state :=
  mkState (set_df d empty_namespace) [].

(** What a statement adds to the standard output. *)
Definition written {A} (m : NB A) (st : state) : list line :=
  skipn (List.length (stdout st)) (stdout (snd (m st))).

(** The cells that analyse the frame, and runs of them in any order and
    any number of times; a run stops at the first exception. *)
Inductive analysis := Cell2 | Cell3 | Cell4 | Cell5 | Cell6 | Cell7.

Definition cell (rest : Rest) (c : analysis) : NB unit :=
  match c with
  | Cell2 => cell2 rest
  | Cell3 => cell3
  | Cell4 => cell4 rest
  | Cell5 => cell5 rest
  | Cell6 => cell6 rest
  | Cell7 => cell7 rest
  end.

Fixpoint run (rest : Rest) (cells : list analysis) : NB unit :=
  match cells with
  | [] => ret tt
  | c :: more => cell rest c ;; run rest more
  end.

(** A statement that reads nothing of the state but the frame bound to
    [df], and leaves that binding as it is: from two states with the same
    [df] it gives the same result and writes the same lines. *)
Definition determined {A} (m : NB A) : Prop :=
  forall st1 st2,
    df (globals st1) = df (globals st2) ->
    fst (m st1) = fst (m st2) /\
    df (globals (snd (m st1))) = df (globals st1) /\
    df (globals (snd (m st2))) = df (globals st2) /\
    exists out,
      stdout (snd (m st1)) = (stdout st1 ++ out)%list /\
      stdout (snd (m st2)) = (stdout st2 ++ out)%list.

(** A library that rejects every call outside the interpreted part and
    whose sort is the insertion sort; used where a concrete library is
    needed. *)
Definition rejecting : Rest :=
  let e := mkExn "TypeError" "" in
  mkRest (fun _ _ => Raise e) (fun _ => Raise e) (fun _ => Raise e)
         (fun _ => Raise e) (fun _ _ _ => Raise e) (fun _ _ => Raise e)
         insertion_sort.

(** The same library with a sort that is not stable. *)
Definition unstable : Rest :=
  let e := mkExn "TypeError" "" in
  mkRest (fun _ _ => Raise e) (fun _ => Raise e) (fun _ => Raise e)
         (fun _ => Raise e) (fun _ _ _ => Raise e) (fun _ _ => Raise e)
         reversing_sort.

(** ** Notions for the further properties *)

(** The lines a cell prints before it first reads [df]. *)
Definition preamble (c : analysis) : list line :=
  match c with
  | Cell2 => [[Text "Data Types in our Dataset:"]]
  | Cell3 => [[Text "Extracting columns by data type:"]]
  | Cell4 => [[Text (nl ++ "Years of Experience Statistics:")]]
  | Cell5 => [[Text "Continuous Data Analysis:"];
              [Text (nl ++ "Salary Statistics:")]]
  | Cell6 => [[Text "Nominal Categorical Data Analysis:"];
              [Text (nl ++ "Department Distribution:")]]
  | Cell7 => [[Text "Ordinal Categorical Data Analysis:"];
              [Text (nl ++ "Education Level Distribution:")]]
  end.

(** The column that a cell reads first, for the cells that read one by
    name. *)
Definition first_column (c : analysis) : option string :=
  match c with
  | Cell2 | Cell3 => None
  | Cell4 => Some "years_experience"
  | Cell5 => Some "salary"
  | Cell6 => Some "department"
  | Cell7 => Some "education_level"
  end.

(** [s] is [l] with some elements left out, the others in their order. *)
Inductive Subseq : list string -> list string -> Prop :=
| Subseq_nil : Subseq [] []
| Subseq_skip x s l : Subseq s l -> Subseq s (x :: l)
| Subseq_take x s l : Subseq s l -> Subseq (x :: s) (x :: l).

(** The columns whose dtype some bucket includes. *)
Definition is_supported (s : Series) : bool := supported (dtype (values s)).

(** The columns that the interpreted [describe] describes. *)
Definition described (s : Series) : bool :=
  match numeric_values (values s) with
  | Some _ => true
  | None => false
  end.





(** Two namespaces that differ at most in the three bucket names. *)
Definition same_but_buckets (ns ns' : namespace) : Prop :=
  employee_data ns' = employee_data ns /\
  df ns' = df ns /\
  dept_counts ns' = dept_counts ns.

(** Two namespaces that differ at most in [dept_counts]. *)
Definition same_but_dept_counts (ns ns' : namespace) : Prop :=
  employee_data ns' = employee_data ns /\
  df ns' = df ns /\
  discrete_cols ns' = discrete_cols ns /\
  continuous_cols ns' = continuous_cols ns /\
  categorical_cols ns' = categorical_cols ns.

(** A statement under which the namespace changes only as [R] allows. *)
Definition confined (R : namespace -> namespace -> Prop) {A} (m : NB A) : Prop :=
  forall st, R (globals st) (globals (snd (m st))).

(** A string without its commas. *)
Fixpoint strip_commas (s : string) : string :=
  match s with
  | EmptyString => EmptyString
  | String c rest =>
      if Ascii.eqb c "," then strip_commas rest else String c (strip_commas rest)
  end.

(** The seven lines of the salary cell around the five rendered numbers. *)
Definition salary_report (lo hi mean median range : string) : list line :=
  [ [Text "Continuous Data Analysis:"];
    [Text (nl ++ "Salary Statistics:")];
    [Text (tab ++ "Minimum Salary: $" ++ lo)];
    [Text (tab ++ "Maximum Salary: $" ++ hi)];
    [Text (tab ++ "Average Salary: $" ++ mean)];
    [Text (tab ++ "Median Salary: $" ++ median)];
    [Text (tab ++ "Salary Range: $" ++ range)] ].

(** The lines of cell 6 around a table of counts. *)
Definition department_report (counts : list (string * nat)) : list line :=
  [ [Text "Nominal Categorical Data Analysis:"];
    [Text (nl ++ "Department Distribution:")];
    [OfCounts (map (fun kn => (SStr (fst kn), snd kn)) counts)];
    [Text "Number of unique departments: "; OfInt (List.length counts)] ].

(** ** Sample inputs *)

(** The state after cell 1 and the frame it binds. *)
Definition loaded : state := snd (cell1 initial).

Definition employee_frame : DataFrame :=
  match df (globals loaded) with Some d => d | None => [] end.

(** The ten salaries in ascending order, as one column. *)
Definition salaries_ascending : Series :=
  mkSeries "salary"
    (FloatArray F64
       [lit 6200000 2; lit 6800000 2; lit 7100080 2; lit 7300060 2;
        lit 7500050 2; lit 7800030 2; lit 8200075 2; lit 8700090 2;
        lit 9500025 2; lit 10500000 2]).

(** One floating-point column and zero rows. *)
Definition no_salaries : Series := mkSeries "salary" (FloatArray F64 []).

Definition department : list string :=
  ["Engineering"; "Marketing"; "Engineering"; "Sales"; "HR";
   "Engineering"; "Marketing"; "Sales"; "Finance"; "Engineering"].

Definition education_level : list string :=
  ["Bachelor"; "Master"; "Bachelor"; "Master"; "Bachelor";
   "Bachelor"; "PhD"; "Master"; "Bachelor"; "Master"].

Definition performance_rating : list string :=
  ["Good"; "Excellent"; "Average"; "Excellent"; "Good";
   "Average"; "Excellent"; "Excellent"; "Good"; "Good"].

Definition years_experience : list Z := [5; 8; 3; 12; 7; 2; 6; 15; 4; 9].

(** A frame with a boolean, a timestamp, a 16-bit integer and a text
    column. *)
Definition mixed_frame : DataFrame :=
  [ mkSeries "active" (RawArray RBool [1; 0; 1]);
    mkSeries "hired" (RawArray RDatetime64 [0; 86400000000000; 172800000000000]);
    mkSeries "age" (IntArray I16 [41; 29; 35]);
    mkSeries "city" (ObjectArray ["Oslo"; "Lima"; "Pune"]) ].

(** A column in which the values of equal count do not appear in the
    order of their counts. *)
Definition letters : list string := ["a"; "b"; "c"; "d"; "c"; "d"].

(** A frame of an integer and a text column, the integers 16 bits wide. *)
Definition narrow_frame : DataFrame :=
  [ mkSeries "age" (IntArray I16 [41; 29; 35]);
    mkSeries "city" (ObjectArray ["Oslo"; "Lima"; "Pune"]) ].

(** A frame with the [education_level] column alone. *)
Definition education_only : DataFrame :=
  [mkSeries "education_level" (ObjectArray education_level)].

End Notebook.

(* ================================================================== *)
(** * Properties *)
(* ================================================================== *)

Import Float Pandas Notebook.

(** ** Classification (cell 3) *)

(** Cell 3 on a bound frame: it completes, binds the three buckets and
    writes four lines; nothing else changes. *)
Lemma cell3_run (st : state) (d : DataFrame) :
  df (globals st) = Some d ->
  cell3 st =
    (Ok tt,
     mkState
       (mkNamespace (employee_data (globals st)) (Some d)
          (Some (columns (filter is_discrete d)))
          (Some (columns (filter is_continuous d)))
          (Some (columns (filter is_categorical d)))
          (dept_counts (globals st)))
       (((((stdout st ++ [[Text "Extracting columns by data type:"]])
            ++ [[Text "Discrete (int) columns: ";
                 OfList (columns (filter is_discrete d))]])
            ++ [[Text "Continuous (float) columns: ";
                 OfList (columns (filter is_continuous d))]])
            ++ [[Text "Categorical (string/object) columns: ";
                 OfList (columns (filter is_categorical d))]]))).
Proof.
  destruct st as [[e f dc cc kc dp] out]; simpl; intros ->.
  reflexivity.
Qed.

(** The three include lists are pairwise exclusive, and a supported dtype
    is in one of them. *)
Lemma bucket_cases (s : Series) :
  supported (dtype (values s)) = true ->
  (is_discrete s = true /\ is_continuous s = false /\ is_categorical s = false) \/
  (is_discrete s = false /\ is_continuous s = true /\ is_categorical s = false) \/
  (is_discrete s = false /\ is_continuous s = false /\ is_categorical s = true).
Proof.
  unfold supported, is_discrete, is_continuous, is_categorical.
  destruct s as [n [[] l | [] l | l | [] l]]; simpl; intros H;
    try discriminate; auto.
Qed.

Lemma unsupported_cases (s : Series) :
  supported (dtype (values s)) = false ->
  is_discrete s = false /\ is_continuous s = false /\ is_categorical s = false.
Proof.
  unfold supported, is_discrete, is_continuous, is_categorical.
  destruct s as [n [[] l | [] l | l | [] l]]; simpl; intros H;
    try discriminate; auto.
Qed.

Lemma buckets_permutation (d : DataFrame) :
  Forall (fun s => supported (dtype (values s)) = true) d ->
  Permutation
    (columns (filter is_discrete d) ++ columns (filter is_continuous d)
       ++ columns (filter is_categorical d))
    (columns d).
Proof.
  induction 1 as [| s d Hs _ IH]; simpl; [constructor |].
  destruct (bucket_cases s Hs) as [(-> & -> & ->) | [(-> & -> & ->) | (-> & -> & ->)]];
    simpl.
  - now constructor.
  - symmetry. apply Permutation_cons_app. now symmetry.
  - symmetry. rewrite app_assoc. apply Permutation_cons_app.
    rewrite <- app_assoc. now symmetry.
Qed.

Lemma in_columns_filter (p : Series -> bool) (d : DataFrame) (c : string) :
  In c (columns (filter p d)) -> exists s, In s d /\ name s = c /\ p s = true.
Proof.
  unfold columns. rewrite in_map_iff. intros (s & <- & Hs).
  apply filter_In in Hs. destruct Hs. eauto.
Qed.

Lemma mem_In (x : string) (l : list string) : mem x l = true <-> In x l.
Proof.
  unfold mem. rewrite existsb_exists. split.
  - intros (y & Hy & E). apply String.eqb_eq in E. now subst.
  - intros H. exists x. split; [assumption | apply String.eqb_refl].
Qed.

Lemma distinct_NoDup (l : list string) : distinct l = true -> NoDup l.
Proof.
  induction l as [| x r IH]; simpl; intros H; constructor.
  - apply andb_prop in H. destruct H as [H _]. intros Hin.
    apply mem_In in Hin. rewrite Hin in H. discriminate.
  - apply IH. apply andb_prop in H. tauto.
Qed.

(** In a frame without repeated names, a name determines its column. *)
Lemma column_of_name (d : DataFrame) (s t : Series) :
  NoDup (columns d) -> In s d -> In t d -> name s = name t -> s = t.
Proof.
  induction d as [| a d IH]; simpl; [tauto |].
  intros Hnd Hs Ht E. inversion Hnd as [| ? ? Hnot Hnd']; subst.
  destruct Hs as [-> | Hs], Ht as [-> | Ht]; auto.
  - exfalso. apply Hnot. rewrite E. now apply in_map.
  - exfalso. apply Hnot. rewrite <- E. now apply in_map.
Qed.

Lemma in_bucket_iff (p : Series -> bool) (d : DataFrame) (s : Series) :
  NoDup (columns d) -> In s d ->
  (In (name s) (columns (filter p d)) <-> p s = true).
Proof.
  intros Hnd Hs. split.
  - intros H. apply in_columns_filter in H. destruct H as (t & Ht & E & Hp).
    now rewrite (column_of_name d s t Hnd Hs Ht (eq_sym E)).
  - intros Hp. unfold columns. apply in_map. apply filter_In. tauto.
Qed.

(** C1 as stated fails: an integer column is listed as Discrete only when
    its dtype is [int64] or [int32].  In a well-formed table of a 16-bit
    integer column [age] and a text column [city], cell 3 completes and
    [age] is in none of the three buckets. *)
Lemma classify_misses_narrow_integers :
  well_formed narrow_frame /\
  forallb (fun s => primitive (values s)) narrow_frame = true /\
  In "age" (columns narrow_frame) /\
  exists st',
    classify (with_df narrow_frame) = (Ok tt, st') /\
    classified st' [] [] ["city"] /\
    ~ In "age" ([] ++ [] ++ ["city"]).
Proof.
  split; [split; vm_compute; reflexivity |].
  split; [reflexivity |]. split; [simpl; auto |].
  eexists. split; [apply (cell3_run (with_df narrow_frame) narrow_frame); reflexivity |].
  split; [repeat split |].
  simpl. intros [H | []]. discriminate.
Qed.

(** C1, amended.  For every well-formed table whose columns have the dtype
    [int64] or [int32] (integers), [float64] or [float32] (floats) or
    [object] (text), the classification of cell 3 completes and puts every
    column name in exactly one of the buckets Discrete, Continuous,
    Categorical: the three buckets together hold no name twice, they hold
    exactly the column names of the table, and a column is in the bucket of
    its dtype. *)
Theorem classify_partitions_columns (st : state) (d : DataFrame) :
  df (globals st) = Some d ->
  well_formed d ->
  forallb (fun s => supported (dtype (values s))) d = true ->
  exists st' D C K,
    classify st = (Ok tt, st') /\
    classified st' D C K /\
    NoDup (D ++ C ++ K) /\
    (forall c, In c (columns d) <-> In c (D ++ C ++ K)) /\
    (forall s, In s d ->
       (In (name s) D <-> is_discrete s = true) /\
       (In (name s) C <-> is_continuous s = true) /\
       (In (name s) K <-> is_categorical s = true)).
Proof.
  intros Hdf [Hnd _] Hsup.
  apply distinct_NoDup in Hnd.
  assert (Hall : Forall (fun s => supported (dtype (values s)) = true) d)
    by (apply Forall_forall; intros s Hs; apply (proj1 (forallb_forall _ _) Hsup s Hs)).
  pose proof (buckets_permutation d Hall) as Hperm.
  eexists _, _, _, _. split; [apply (cell3_run st d Hdf) |].
  split; [repeat split |]. split; [| split].
  - apply (Permutation_NoDup (Permutation_sym Hperm) Hnd).
  - intros c. split; intros H.
    + apply (Permutation_in c (Permutation_sym Hperm) H).
    + apply (Permutation_in c Hperm H).
  - intros s Hs. split; [| split]; apply in_bucket_iff; assumption.
Qed.

Lemma classify_partitions_columns_witness :
  exists st' D C K,
    classify loaded = (Ok tt, st') /\
    classified st' D C K /\
    NoDup (D ++ C ++ K) /\
    (forall c, In c (columns employee_frame) <-> In c (D ++ C ++ K)) /\
    (forall s, In s employee_frame ->
       (In (name s) D <-> is_discrete s = true) /\
       (In (name s) C <-> is_continuous s = true) /\
       (In (name s) K <-> is_categorical s = true)).
Proof.
  apply (classify_partitions_columns loaded employee_frame).
  - vm_compute. reflexivity.
  - split; vm_compute; reflexivity.
  - vm_compute. reflexivity.
Defined.

(** Cell 3 on the employee table gives the three lists of the recorded
    output. *)
Lemma classify_employee_frame :
  exists st',
    classify loaded = (Ok tt, st') /\
    classified st'
      ["employee_id"; "years_experience"]
      ["salary"]
      ["name"; "department"; "education_level"; "performance_rating"].
Proof.
  eexists. split; [apply (cell3_run loaded employee_frame); vm_compute; reflexivity |].
  repeat split.
Qed.

(** C4 as stated fails: a table with boolean, timestamp and 16-bit integer
    columns is classified without any exception; no
    [UnsupportedColumnType] is signalled. *)
Lemma classify_does_not_reject :
  forallb (fun s => supported (dtype (values s))) mixed_frame = false /\
  fst (classify (with_df mixed_frame)) = Ok tt /\
  ~ (exists m, fst (classify (with_df mixed_frame))
               = Raise (mkExn "UnsupportedColumnType" m)).
Proof.
  split; [reflexivity |]. split; [reflexivity |].
  intros (m & H). vm_compute in H. discriminate.
Qed.

(** C4, amended.  The classification has no failure mode on a table at
    all: whatever the dtypes of the columns of the frame bound to [df],
    cell 3 completes.  Its only exception is the [NameError] of an unbound
    [df]. *)
Theorem classify_total (st : state) :
  (exists d, df (globals st) = Some d /\ fst (classify st) = Ok tt) \/
  (df (globals st) = None /\ fst (classify st) = Raise (NameError "df")).
Proof.
  destruct (df (globals st)) as [d |] eqn:E.
  - left. exists d. split; [reflexivity |].
    unfold classify. now rewrite (cell3_run st d E).
  - right. split; [reflexivity |].
    destruct st as [[e f dc cc kc dp] out]; simpl in E; subst. reflexivity.
Qed.

(** C10.  A column whose dtype is none of [int64], [int32], [float64],
    [float32], [object] raises no error in cell 3 and is left out of all
    three buckets. *)
Theorem classify_omits_unsupported (st : state) (d : DataFrame) (s : Series) :
  df (globals st) = Some d ->
  distinct (columns d) = true ->
  In s d ->
  supported (dtype (values s)) = false ->
  exists st' D C K,
    classify st = (Ok tt, st') /\
    classified st' D C K /\
    ~ In (name s) D /\ ~ In (name s) C /\ ~ In (name s) K.
Proof.
  intros Hdf Hnd Hs Hun.
  apply distinct_NoDup in Hnd.
  destruct (unsupported_cases s Hun) as (H1 & H2 & H3).
  eexists _, _, _, _. split; [apply (cell3_run st d Hdf) |].
  split; [repeat split |].
  repeat split; intros Hin; apply (in_bucket_iff _ d s Hnd Hs) in Hin; congruence.
Qed.

Lemma classify_omits_unsupported_witness :
  exists st' D C K,
    classify (with_df mixed_frame) = (Ok tt, st') /\
    classified st' D C K /\
    ~ In "active" D /\ ~ In "active" C /\ ~ In "active" K.
Proof.
  apply (classify_omits_unsupported (with_df mixed_frame) mixed_frame
           (mkSeries "active" (RawArray RBool [1; 0; 1]))).
  - reflexivity.
  - reflexivity.
  - simpl. auto.
  - reflexivity.
Defined.

(** ** Numeric summaries (cells 2, 4 and 5) *)

(** Statements on a state whose [df] is bound: a column access either
    finds the column or raises [KeyError]. *)
Lemma column_run {A} (key : string) (method : Series -> outcome A)
      (st : state) (d : DataFrame) (s : Series) :
  df (globals st) = Some d ->
  getitem d key = Ok s ->
  column key method st = (method s, st).
Proof.
  intros Hdf Hget. unfold column, bind, load_df, load, call.
  rewrite Hdf, Hget. reflexivity.
Qed.

(** C2.  On the column of the ten salaries 62000.00, 68000.00, 71000.80,
    73000.60, 75000.50, 78000.30, 82000.75, 87000.90, 95000.25, 105000.00
    the reductions of the salary cell return min = 62000.00,
    max = 105000.00, mean = 79600.41 and median = 76500.40 (each the
    binary64 value of that literal), and the cell prints them with two
    decimals as in the recorded output; the same lines are printed on the
    frame of cell 1, where the salaries are in the order of the source. *)
Theorem summarizeNumeric_salaries (rest : Rest) :
  Series_min rest salaries_ascending = Ok (SFloat F64 (lit 6200000 2)) /\
  Series_max rest salaries_ascending = Ok (SFloat F64 (lit 10500000 2)) /\
  Series_mean rest salaries_ascending = Ok (SFloat F64 (lit 7960041 2)) /\
  Series_median rest salaries_ascending = Ok (SFloat F64 (lit 7650040 2)) /\
  (let report :=
     [ [Text "Continuous Data Analysis:"];
       [Text (nl ++ "Salary Statistics:")];
       [Text (tab ++ "Minimum Salary: $62,000.00")];
       [Text (tab ++ "Maximum Salary: $105,000.00")];
       [Text (tab ++ "Average Salary: $79,600.41")];
       [Text (tab ++ "Median Salary: $76,500.40")];
       [Text (tab ++ "Salary Range: $43,000.00")] ] in
   fst (summarizeNumeric rest (with_df [salaries_ascending])) = Ok tt /\
   written (summarizeNumeric rest) (with_df [salaries_ascending]) = report /\
   fst (summarizeNumeric rest loaded) = Ok tt /\
   written (summarizeNumeric rest) loaded = report).
Proof.
  repeat split; vm_compute; reflexivity.
Qed.

(** C3 as stated fails: on a table whose single column [salary] has zero
    rows the salary cell raises nothing, in particular no
    [EmptyColumnError]; every statistic is NaN and is printed as [nan]. *)
Lemma summarizeNumeric_empty_no_error :
  size (values no_salaries) = O /\
  fst (summarizeNumeric rejecting (with_df [no_salaries])) = Ok tt /\
  written (summarizeNumeric rejecting) (with_df [no_salaries]) =
    [ [Text "Continuous Data Analysis:"];
      [Text (nl ++ "Salary Statistics:")];
      [Text (tab ++ "Minimum Salary: $nan")];
      [Text (tab ++ "Maximum Salary: $nan")];
      [Text (tab ++ "Average Salary: $nan")];
      [Text (tab ++ "Median Salary: $nan")];
      [Text (tab ++ "Salary Range: $nan")] ] /\
  ~ (exists m, fst (summarizeNumeric rejecting (with_df [no_salaries]))
               = Raise (mkExn "EmptyColumnError" m)).
Proof.
  repeat split; try (vm_compute; reflexivity).
  intros (m & H). vm_compute in H. discriminate.
Qed.

(** The four reductions of the salary cell on a numeric column without
    rows. *)
Lemma reductions_empty (rest : Rest) (s : Series) :
  numeric (values s) = true ->
  size (values s) = O ->
  exists w,
    Series_min rest s = Ok (SFloat w nan) /\
    Series_max rest s = Ok (SFloat w nan) /\
    Series_mean rest s = Ok (SFloat w nan) /\
    Series_median rest s = Ok (SFloat w nan).
Proof.
  destruct s as [n [w l | w l | l | r l]]; simpl; intros Hn Hz;
    try discriminate; apply length_zero_iff_nil in Hz; subst l.
  - exists F64. repeat split.
  - exists w. repeat split.
Qed.

(** C3, amended.  For every numeric (integer or floating-point) column
    with zero rows, the reductions of the salary cell raise no error: min,
    max, mean and median each return NaN.  On a frame whose [salary]
    column is such a column the salary cell completes and prints [nan] for
    every statistic. *)
Theorem summarizeNumeric_empty (rest : Rest) (st : state) (d : DataFrame) (s : Series) :
  df (globals st) = Some d ->
  getitem d "salary" = Ok s ->
  numeric (values s) = true ->
  size (values s) = O ->
  (exists lo hi mean median,
     Series_min rest s = Ok lo /\ is_nan_scalar lo = true /\
     Series_max rest s = Ok hi /\ is_nan_scalar hi = true /\
     Series_mean rest s = Ok mean /\ is_nan_scalar mean = true /\
     Series_median rest s = Ok median /\ is_nan_scalar median = true) /\
  fst (summarizeNumeric rest st) = Ok tt /\
  written (summarizeNumeric rest) st =
    [ [Text "Continuous Data Analysis:"];
      [Text (nl ++ "Salary Statistics:")];
      [Text (tab ++ "Minimum Salary: $nan")];
      [Text (tab ++ "Maximum Salary: $nan")];
      [Text (tab ++ "Average Salary: $nan")];
      [Text (tab ++ "Median Salary: $nan")];
      [Text (tab ++ "Salary Range: $nan")] ].
Proof.
  intros Hdf Hget Hn Hz.
  destruct (reductions_empty rest s Hn Hz) as (w & Hlo & Hhi & Hmean & Hmed).
  split.
  - exists (SFloat w nan), (SFloat w nan), (SFloat w nan), (SFloat w nan).
    repeat split; assumption.
  - unfold written, summarizeNumeric, cell5.
    destruct st as [g out]. simpl in Hdf.
    unfold bind, print; simpl.
    repeat (first [ rewrite (column_run _ _ _ d s) by (simpl; assumption)
                  | rewrite Hlo | rewrite Hhi | rewrite Hmean | rewrite Hmed ];
            simpl).
    destruct w; simpl; (split; [reflexivity |]);
      repeat rewrite <- app_assoc; simpl;
      rewrite skipn_app, skipn_all, Nat.sub_diag; reflexivity.
Qed.

Lemma summarizeNumeric_empty_witness :
  let s := mkSeries "salary" (IntArray I32 []) in
  let st := with_df [mkSeries "employee_id" (IntArray I64 []); s] in
  (exists lo hi mean median,
     Series_min rejecting s = Ok lo /\ is_nan_scalar lo = true /\
     Series_max rejecting s = Ok hi /\ is_nan_scalar hi = true /\
     Series_mean rejecting s = Ok mean /\ is_nan_scalar mean = true /\
     Series_median rejecting s = Ok median /\ is_nan_scalar median = true) /\
  fst (summarizeNumeric rejecting st) = Ok tt /\
  written (summarizeNumeric rejecting) st =
    [ [Text "Continuous Data Analysis:"];
      [Text (nl ++ "Salary Statistics:")];
      [Text (tab ++ "Minimum Salary: $nan")];
      [Text (tab ++ "Maximum Salary: $nan")];
      [Text (tab ++ "Average Salary: $nan")];
      [Text (tab ++ "Median Salary: $nan")];
      [Text (tab ++ "Salary Range: $nan")] ].
Proof.
  intros s st.
  apply (summarizeNumeric_empty rejecting st
           [mkSeries "employee_id" (IntArray I64 []); s] s);
    reflexivity.
Defined.

(** C9.  The standard deviation of the [describe] table is the sample
    standard deviation (divisor [n - 1]): on the ten rows of the employee
    table [describe] reports 4.067486 for [years_experience] and
    13031.574396 for [salary], where the population standard deviation
    (divisor [n]) would be 3.858756 and 12362.836977.  The whole table is
    the recorded one. *)
Theorem describe_std_sample (rest : Rest) :
  (exists r,
     describe rest employee_frame = Ok r /\
     describe_index r = ["count"; "mean"; "std"; "min"; "25%"; "50%"; "75%"; "max"] /\
     shown r =
       [ ("employee_id",
          ["10.000000"; "1005.500000"; "3.027650"; "1001.000000";
           "1003.250000"; "1005.500000"; "1007.750000"; "1010.000000"]);
         ("years_experience",
          ["10.000000"; "7.100000"; "4.067486"; "2.000000";
           "4.250000"; "6.500000"; "8.750000"; "15.000000"]);
         ("salary",
          ["10.000000"; "79600.410000"; "13031.574396"; "62000.000000";
           "71500.750000"; "76500.400000"; "85750.862500"; "105000.000000"]) ]) /\
  (exists years salary y s,
     getitem employee_frame "years_experience" = Ok years /\
     getitem employee_frame "salary" = Ok salary /\
     Series_std rest years = Ok y /\ six y = "4.067486" /\
     Series_std rest salary = Ok s /\ six s = "13031.574396" /\
     std_with 1 years = Some "4.067486" /\
     std_with 1 salary = Some "13031.574396" /\
     std_with 0 years = Some "3.858756" /\
     std_with 0 salary = Some "12362.836977").
Proof.
  split.
  - eexists. split; [vm_compute; reflexivity |]. split; vm_compute; reflexivity.
  - eexists _, _, _, _. repeat split; vm_compute; reflexivity.
Qed.

(** ** Value counts (cells 6 and 7) *)

(** C5.  On the [department] column of the employee table
    (Engineering x4, Marketing x2, Sales x2, HR x1, Finance x1)
    [value_counts] is Engineering 4, Marketing 2, Sales 2, HR 1, Finance 1
    and [nunique] is 5; on [education_level] (Bachelor x5, Master x4,
    PhD x1) they are Bachelor 5, Master 4, PhD 1 and 3.  Cells 6 and 7
    print these on the frame of cell 1. *)
Theorem summarizeCategorical_employee (rest : Rest) :
  summarizeCategorical rest department =
    ([("Engineering", 4); ("Marketing", 2); ("Sales", 2); ("HR", 1);
      ("Finance", 1)]%nat, 5%nat) /\
  summarizeCategorical rest education_level =
    ([("Bachelor", 5); ("Master", 4); ("PhD", 1)]%nat, 3%nat) /\
  getitem employee_frame "department"
    = Ok (mkSeries "department" (ObjectArray department)) /\
  getitem employee_frame "education_level"
    = Ok (mkSeries "education_level" (ObjectArray education_level)) /\
  fst (cell6 rest loaded) = Ok tt /\
  written (cell6 rest) loaded =
    [ [Text "Nominal Categorical Data Analysis:"];
      [Text (nl ++ "Department Distribution:")];
      [OfCounts [(SStr "Engineering", 4); (SStr "Marketing", 2);
                 (SStr "Sales", 2); (SStr "HR", 1); (SStr "Finance", 1)]%nat];
      [Text "Number of unique departments: "; OfInt 5] ] /\
  fst (cell7 rest loaded) = Ok tt /\
  written (cell7 rest) loaded =
    [ [Text "Ordinal Categorical Data Analysis:"];
      [Text (nl ++ "Education Level Distribution:")];
      [OfCounts [(SStr "Bachelor", 5); (SStr "Master", 4); (SStr "PhD", 1)]%nat];
      [Text (nl ++ "Performance Rating Distribution:")];
      [OfCounts [(SStr "Good", 4); (SStr "Excellent", 4);
                 (SStr "Average", 2)]%nat];
      [Text (nl ++ "Unique Education Levels: "); OfInt 3];
      [Text "Unique Performance Ratings: "; OfInt 3] ].
Proof.
  repeat split; vm_compute; reflexivity.
Qed.

(** *** The sort of [sort_values] *)

Lemma insert_count_perm (x : string * nat) (l : list (string * nat)) :
  Permutation (insert_count x l) (x :: l).
Proof.
  induction l as [| y r IH]; simpl; [reflexivity |].
  destruct (Nat.ltb (snd x) (snd y)); [reflexivity |].
  rewrite IH. apply perm_swap.
Qed.

Lemma insert_count_sorted (x : string * nat) (l : list (string * nat)) :
  StronglySorted ascending l -> StronglySorted ascending (insert_count x l).
Proof.
  induction 1 as [| y r Hr IH Hy]; simpl.
  - repeat constructor.
  - destruct (Nat.ltb (snd x) (snd y)) eqn:E.
    + apply Nat.ltb_lt in E. constructor; [now constructor |].
      constructor; [unfold ascending; lia |].
      eapply Forall_impl; [| exact Hy]. unfold ascending. intros; lia.
    + apply Nat.ltb_ge in E. constructor; [exact IH |].
      apply (Permutation_Forall (Permutation_sym (insert_count_perm x r))).
      constructor; [exact E | exact Hy].
Qed.

Lemma insertion_sort_from (l acc : list (string * nat)) :
  StronglySorted ascending acc ->
  let r := fold_left (fun acc x => insert_count x acc) l acc in
  StronglySorted ascending r /\ Permutation r (acc ++ l).
Proof.
  revert acc. induction l as [| x l IH]; simpl; intros acc Hs.
  - rewrite app_nil_r. split; auto.
  - destruct (IH (insert_count x acc) (insert_count_sorted x acc Hs)) as (H1 & H2).
    split; [exact H1 |].
    rewrite H2, (insert_count_perm x acc). apply Permutation_middle.
Qed.

Lemma insertion_sort_sorts (l : list (string * nat)) :
  StronglySorted ascending (insertion_sort l) /\ Permutation (insertion_sort l) l.
Proof.
  exact (insertion_sort_from l [] (SSorted_nil _)).
Qed.

Lemma is_ascending_sorted (l : list (string * nat)) :
  is_ascending l = true -> StronglySorted ascending l.
Proof.
  intros H. apply Sorted_StronglySorted.
  - intros x y z. unfold ascending. lia.
  - induction l as [| x r IH]; [constructor |].
    destruct r as [| y r]; [repeat constructor |].
    cbn [is_ascending] in H. apply andb_prop in H. destruct H as (Hxy & Hr).
    constructor; [exact (IH Hr) |].
    constructor. now apply Nat.leb_le.
Qed.

Lemma entry_eqb_eq (a b : string * nat) : entry_eqb a b = true -> a = b.
Proof.
  destruct a as [k n], b as [k' n']. unfold entry_eqb. simpl. intros H.
  apply andb_prop in H. destruct H as (Hk & Hn).
  apply String.eqb_eq in Hk. apply Nat.eqb_eq in Hn. now subst.
Qed.

Lemma remove_first_perm (x : string * nat) (l r : list (string * nat)) :
  remove_first x l = Some r -> Permutation l (x :: r).
Proof.
  revert r. induction l as [| y l IH]; simpl; intros r H; [discriminate |].
  destruct (entry_eqb x y) eqn:E.
  - injection H as <-. apply entry_eqb_eq in E. now subst.
  - destruct (remove_first x l) as [r' |]; [| discriminate].
    injection H as <-. rewrite (IH r' eq_refl). apply perm_swap.
Qed.

Lemma same_entries_perm (l r : list (string * nat)) :
  same_entries l r = true -> Permutation l r.
Proof.
  revert r. induction l as [| x l IH]; simpl; intros r H.
  - destruct r; [constructor | discriminate].
  - destruct (remove_first x r) as [r' |] eqn:E; [| discriminate].
    rewrite (remove_first_perm x r r' E). constructor. now apply IH.
Qed.

(** Whatever the library proposes, [argsort] returns the entries of its
    input in ascending order of count. *)
Lemma argsort_sorts (rest : Rest) (l : list (string * nat)) :
  StronglySorted ascending (argsort rest l) /\ Permutation (argsort rest l) l.
Proof.
  unfold argsort.
  destruct (Nat.leb (List.length l) 16 && is_ascending l) eqn:E.
  - apply andb_prop in E. split; [now apply is_ascending_sorted | reflexivity].
  - destruct (is_ascending (rest_argsort rest l) && same_entries l (rest_argsort rest l))
      eqn:V.
    + apply andb_prop in V. destruct V as (V1 & V2).
      split; [now apply is_ascending_sorted |].
      symmetry. now apply same_entries_perm.
    + apply insertion_sort_sorts.
Qed.

Lemma sorted_app {A} (R : A -> A -> Prop) (l1 l2 : list A) :
  StronglySorted R l1 -> StronglySorted R l2 ->
  (forall x y, In x l1 -> In y l2 -> R x y) ->
  StronglySorted R (l1 ++ l2).
Proof.
  induction 1 as [| a l Hl IH Ha]; simpl; intros H2 Hc; [assumption |].
  constructor.
  - apply IH; [assumption |]. intros x y Hx Hy. apply Hc; [now right | assumption].
  - apply Forall_app. split; [assumption |].
    apply Forall_forall. intros y Hy. apply Hc; [now left | assumption].
Qed.

Lemma sorted_rev (l : list (string * nat)) :
  StronglySorted ascending l -> StronglySorted descending (rev l).
Proof.
  induction 1 as [| a l Hl IH Ha]; simpl; [constructor |].
  apply sorted_app; [assumption | repeat constructor |].
  intros x y Hx [<- | []]. apply in_rev in Hx.
  rewrite Forall_forall in Ha. exact (Ha x Hx).
Qed.

(** [sort_values(ascending=False)] returns the entries of its input by
    descending count. *)
Lemma sort_values_descending_sorts (rest : Rest) (l : list (string * nat)) :
  StronglySorted descending (sort_values_descending rest l) /\
  Permutation (sort_values_descending rest l) l.
Proof.
  unfold sort_values_descending.
  destruct (argsort_sorts rest (rev l)) as (H1 & H2).
  split.
  - now apply sorted_rev.
  - rewrite <- Permutation_rev, H2. symmetry. apply Permutation_rev.
Qed.

(** *** The counts of [value_counts] *)

Lemma first_seen_In (l : list string) (k : string) :
  In k (first_seen l) <-> In k l.
Proof.
  induction l as [| x r IH]; simpl; [tauto |].
  rewrite filter_In, IH, negb_true_iff, String.eqb_neq.
  destruct (string_dec x k); intuition congruence.
Qed.

Lemma first_seen_NoDup (l : list string) : NoDup (first_seen l).
Proof.
  induction l as [| x r IH]; simpl; constructor.
  - rewrite filter_In, String.eqb_refl. intros [_ H]. discriminate.
  - now apply NoDup_filter.
Qed.

(** One more row: a value already seen keeps its place, a new value goes
    to the end. *)
Lemma first_seen_snoc (l : list string) (x : string) :
  first_seen (l ++ [x]) =
  if mem x l then first_seen l else (first_seen l ++ [x])%list.
Proof.
  induction l as [| a r IH]; simpl; [reflexivity |].
  rewrite IH. destruct (String.eqb x a) eqn:E; simpl.
  - apply String.eqb_eq in E. subst a.
    destruct (mem x r); [reflexivity |].
    rewrite filter_app. simpl. rewrite String.eqb_refl. simpl.
    now rewrite app_nil_r.
  - destruct (mem x r); [reflexivity |].
    rewrite filter_app. simpl. rewrite String.eqb_sym, E. reflexivity.
Qed.

Lemma occurrences_snoc (l : list string) (x k : string) :
  occurrences (l ++ [x]) k =
  if String.eqb x k then S (occurrences l k) else occurrences l k.
Proof.
  unfold occurrences. rewrite count_occ_app. simpl.
  destruct (string_dec x k) as [-> | N].
  - rewrite String.eqb_refl. lia.
  - apply String.eqb_neq in N. rewrite N. lia.
Qed.

Lemma bump_counts (f : string -> nat) (k : string) (ks : list string) :
  NoDup ks ->
  bump k (map (fun c => (c, f c)) ks) =
  if mem k ks
  then map (fun c => (c, if String.eqb k c then S (f c) else f c)) ks
  else (map (fun c => (c, f c)) ks ++ [(k, 1%nat)])%list.
Proof.
  induction 1 as [| a r Ha Hr IH]; simpl; [reflexivity |].
  destruct (String.eqb k a) eqn:E; simpl.
  - apply String.eqb_eq in E. subst a. f_equal.
    apply map_ext_in. intros c Hc.
    destruct (String.eqb k c) eqn:E; [| reflexivity].
    apply String.eqb_eq in E. now subst c.
  - rewrite IH. destruct (mem k r); reflexivity.
Qed.

(** [tally] lists the distinct values in order of first appearance, each
    with its number of rows. *)
Lemma tally_counts (l : list string) :
  tally l = map (fun k => (k, occurrences l k)) (first_seen l).
Proof.
  induction l as [| x l IH] using rev_ind; [reflexivity |].
  unfold tally in *. rewrite fold_left_app. simpl. rewrite IH.
  rewrite (bump_counts _ x _ (first_seen_NoDup l)), first_seen_snoc.
  assert (Hm : mem x (first_seen l) = mem x l).
  { apply eq_true_iff_eq. rewrite !mem_In. apply first_seen_In. }
  rewrite Hm. destruct (mem x l) eqn:E.
  - apply map_ext. intros c. now rewrite occurrences_snoc.
  - rewrite map_app. simpl. f_equal.
    + apply map_ext_in. intros c Hc. rewrite occurrences_snoc.
      destruct (String.eqb x c) eqn:Ex; [| reflexivity].
      apply String.eqb_eq in Ex. subst c.
      apply (proj1 (first_seen_In l x)) in Hc.
      apply (proj2 (mem_In x l)) in Hc. congruence.
    + rewrite occurrences_snoc, String.eqb_refl.
      assert (H0 : occurrences l x = O).
      { apply count_occ_not_In. intros Hin. apply mem_In in Hin. congruence. }
      now rewrite H0.
Qed.

Lemma keys_of_counts (f : string -> nat) (ks : list string) :
  map fst (map (fun k => (k, f k)) ks) = ks.
Proof.
  rewrite map_map. simpl. apply map_id.
Qed.

(** C6 as stated fails: the order of the values of equal count is that of
    the library's sort, which is not stable.  On the column a, b, c, d, c, d
    with a sort that reverses equal counts, [value_counts] is d 2, c 2,
    b 1, a 1, while c appears before d and a before b in the column. *)
Lemma value_counts_ties_not_first_seen :
  Series_value_counts unstable (mkSeries "letter" (ObjectArray letters))
  = Ok [(SStr "d", 2%nat); (SStr "c", 2%nat); (SStr "b", 1%nat); (SStr "a", 1%nat)] /\
  value_counts_object unstable letters
  = [("d", 2%nat); ("c", 2%nat); ("b", 1%nat); ("a", 1%nat)] /\
  first_seen letters = ["a"; "b"; "c"; "d"] /\
  map fst (filter (has 2) (value_counts_object unstable letters)) = ["d"; "c"] /\
  filter (fun k => Nat.eqb (occurrences letters k) 2) (first_seen letters)
  = ["c"; "d"].
Proof.
  repeat split; vm_compute; reflexivity.
Qed.

(** C6, amended.  For every column of text, [value_counts] and [nunique]
    return (they raise nothing); the pairs of [value_counts] are sorted by
    descending count; they are exactly the distinct values of the column,
    each once, with its number of rows; [nunique] is the number of pairs;
    and on a column without rows the sequence is empty and [nunique] is 0.
    The order of the values of equal count is the library's. *)
Theorem value_counts_sorted (rest : Rest) (label : string) (l : list string) :
  let column := mkSeries label (ObjectArray l) in
  let counts := value_counts_object rest l in
  Series_value_counts rest column
    = Ok (map (fun kn => (SStr (fst kn), snd kn)) counts) /\
  Series_nunique rest column = Ok (List.length counts) /\
  summarizeCategorical rest l = (counts, List.length counts) /\
  StronglySorted descending counts /\
  (forall k n, In (k, n) counts <-> In k l /\ n = occurrences l k) /\
  NoDup (map fst counts) /\
  summarizeCategorical rest [] = ([], O).
Proof.
  intros column counts.
  destruct (sort_values_descending_sorts rest (tally l)) as (Hsorted & Hperm).
  fold (value_counts_object rest l) in Hsorted, Hperm. fold counts in Hsorted, Hperm.
  assert (Hlen : nunique_object l = List.length counts).
  { unfold nunique_object. symmetry. apply (Permutation_length Hperm). }
  split; [reflexivity |].
  split; [unfold Series_nunique, column; cbn [values]; now rewrite Hlen |].
  split; [unfold summarizeCategorical; now rewrite Hlen |].
  split; [exact Hsorted |].
  split; [intros k n; split; [intros H; split |] | split; [| reflexivity]].
  - apply (Permutation_in _ Hperm) in H. rewrite tally_counts in H.
    apply in_map_iff in H. destruct H as (c & E & Hc). inversion E; subst.
    now apply first_seen_In.
  - apply (Permutation_in _ Hperm) in H. rewrite tally_counts in H.
    apply in_map_iff in H. destruct H as (c & E & Hc). now inversion E.
  - intros (Hk & ->). apply (Permutation_in _ (Permutation_sym Hperm)).
    rewrite tally_counts. apply in_map_iff. exists k. split; [reflexivity |].
    now apply first_seen_In.
  - apply (Permutation_NoDup (Permutation_map fst (Permutation_sym Hperm))).
    rewrite tally_counts, keys_of_counts. apply first_seen_NoDup.
Qed.

(** ** Purity of the analysis cells *)

Lemma determined_ret {A} (a : A) : determined (ret a).
Proof.
  intros st1 st2 _. simpl. repeat split. exists []. now rewrite !app_nil_r.
Qed.

Lemma determined_call {A} (o : outcome A) : determined (call o).
Proof.
  intros st1 st2 _. simpl. repeat split. exists []. now rewrite !app_nil_r.
Qed.

Lemma determined_print (l : line) : determined (print l).
Proof.
  intros st1 st2 _. simpl. repeat split. now exists [l].
Qed.

Lemma determined_load_df : determined load_df.
Proof.
  intros st1 st2 E. unfold load_df, load. rewrite E.
  destruct (df (globals st2)) eqn:E2; simpl;
    (split; [reflexivity |]); (split; [congruence |]); (split; [congruence |]);
    exists []; now rewrite !app_nil_r.
Qed.

Lemma determined_bind {A B} (m : NB A) (k : A -> NB B) :
  determined m -> (forall a, determined (k a)) -> determined (bind m k).
Proof.
  intros Hm Hk st1 st2 E.
  destruct (Hm st1 st2 E) as (Hr & H1 & H2 & out & O1 & O2).
  unfold bind.
  destruct (m st1) as [r1 s1], (m st2) as [r2 s2]; simpl in *. subst r2.
  destruct r1 as [a | e]; simpl.
  - assert (E' : df (globals s1) = df (globals s2)) by congruence.
    destruct (Hk a s1 s2 E') as (Kr & K1 & K2 & out' & P1 & P2).
    repeat split; try congruence.
    exists (out ++ out')%list. rewrite P1, P2, O1, O2, <- !app_assoc. now split.
  - repeat split; try assumption. now exists out.
Qed.

(** A name assigned and read back at once. *)
Lemma determined_store_load {A B} (f : namespace -> namespace)
      (var : namespace -> option A) (id : string) (v : A) (k : A -> NB B) :
  (forall ns, var (f ns) = Some v) ->
  (forall ns, df (f ns) = df ns) ->
  determined (k v) ->
  determined (bind (assign f) (fun _ => bind (load var id) k)).
Proof.
  intros Hv Hf Hk st1 st2 E.
  unfold bind, assign, load; simpl. rewrite !Hv.
  set (t1 := mkState (f (globals st1)) (stdout st1)).
  set (t2 := mkState (f (globals st2)) (stdout st2)).
  assert (E' : df (globals t1) = df (globals t2)) by (simpl; now rewrite !Hf).
  destruct (Hk t1 t2 E') as (Kr & K1 & K2 & out & P1 & P2).
  simpl in K1, K2. rewrite Hf in K1, K2.
  repeat split; try assumption. now exists out.
Qed.

Lemma determined_column {A} (key : string) (method : Series -> outcome A) :
  determined (column key method).
Proof.
  unfold column.
  apply determined_bind; [apply determined_load_df | intros d].
  apply determined_bind; [apply determined_call | intros s].
  apply determined_call.
Qed.

Ltac determined :=
  repeat first
    [ eapply determined_store_load; [reflexivity | reflexivity | cbv beta]
    | apply determined_bind; [| intros ?]
    | apply determined_column
    | apply determined_print
    | apply determined_load_df
    | apply determined_call
    | apply determined_ret ].

Lemma cell_determined (rest : Rest) (c : analysis) : determined (cell rest c).
Proof.
  destruct c; simpl.
  - unfold cell2. determined.
  - unfold cell3. determined.
  - unfold cell4. determined.
  - unfold cell5. determined.
  - unfold cell6. determined.
  - unfold cell7. determined.
Qed.

Lemma run_determined (rest : Rest) (cells : list analysis) :
  determined (run rest cells).
Proof.
  induction cells as [| c cells IH]; simpl.
  - apply determined_ret.
  - apply determined_bind; [apply cell_determined | intros _; exact IH].
Qed.

Lemma describeTable_determined (rest : Rest) : determined (describeTable rest).
Proof.
  unfold describeTable.
  apply determined_bind; [apply (cell_determined rest Cell2) | intros _].
  apply (cell_determined rest Cell3).
Qed.

(** What a pure statement writes does not depend on what was written
    before. *)
Lemma determined_written {A} (m : NB A) (st1 st2 : state) :
  determined m ->
  df (globals st1) = df (globals st2) ->
  fst (m st1) = fst (m st2) /\ written m st1 = written m st2.
Proof.
  intros Hm E. destruct (Hm st1 st2 E) as (Hr & _ & _ & out & O1 & O2).
  split; [exact Hr |]. unfold written.
  rewrite O1, O2, !skipn_app, !skipn_all, !Nat.sub_diag. reflexivity.
Qed.

(** C7.  [describeTable] is deterministic: on two states in which [df] is
    bound to the same table, whatever else they hold and whatever was
    printed before, it gives the same result and writes the same lines; and
    run a second time after itself it gives the same result and writes the
    same lines again. *)
Theorem describeTable_deterministic (rest : Rest) (d : DataFrame) (st st' : state) :
  let s1 := mkState (set_df d (globals st)) (stdout st) in
  let s2 := mkState (set_df d (globals st')) (stdout st') in
  let again := snd (describeTable rest s1) in
  fst (describeTable rest s1) = fst (describeTable rest s2) /\
  written (describeTable rest) s1 = written (describeTable rest) s2 /\
  df (globals again) = Some d /\
  fst (describeTable rest again) = fst (describeTable rest s1) /\
  written (describeTable rest) again = written (describeTable rest) s1.
Proof.
  intros s1 s2 again.
  pose proof (describeTable_determined rest) as Hd.
  assert (Hagain : df (globals again) = Some d).
  { destruct (Hd s1 s1 eq_refl) as (_ & H & _). exact H. }
  destruct (determined_written _ s1 s2 Hd eq_refl) as (H1 & H2).
  destruct (determined_written _ again s1 Hd Hagain) as (H3 & H4).
  repeat split; assumption.
Qed.

(** [describeTable] on the employee table: the dtype listing, the numeric
    description and the three buckets of the recorded output. *)
Lemma describeTable_employee (rest : Rest) :
  fst (describeTable rest loaded) = Ok tt /\
  exists r,
    describe rest employee_frame = Ok r /\
    written (describeTable rest) loaded =
      [ [Text "Data Types in our Dataset:"];
        [OfDtypes [("employee_id", "int64"); ("name", "object");
                   ("department", "object"); ("years_experience", "int64");
                   ("salary", "float64"); ("education_level", "object");
                   ("performance_rating", "object")]];
        [Text (nl ++ times "=" 50)];
        [Text (nl ++ "Descriptive Statistics for Numerical Columns:")];
        [OfDescribe r];
        [Text "Extracting columns by data type:"];
        [Text "Discrete (int) columns: ";
         OfList ["employee_id"; "years_experience"]];
        [Text "Continuous (float) columns: "; OfList ["salary"]];
        [Text "Categorical (string/object) columns: ";
         OfList ["name"; "department"; "education_level"; "performance_rating"]] ].
Proof.
  split; [vm_compute; reflexivity |].
  eexists. split; vm_compute; reflexivity.
Qed.

(** C8.  No operation changes the table.  Cell 1 binds [df] to the frame
    built from the literal; after that, every run of analysis cells
    (in any order, any number of times) leaves [df] bound to the same
    frame, with the same columns, rows and column order; and from any
    state, [classify], [summarizeNumeric], the cells of
    [summarizeCategorical] and [describeTable] leave the binding of [df]
    as it was. *)
Theorem table_never_mutated (rest : Rest) (cells : list analysis) (st : state) :
  df (globals (snd (cell1 st))) = Some employee_frame /\
  df (globals (snd (run rest cells (snd (cell1 st))))) = Some employee_frame /\
  df (globals (snd (run rest cells st))) = df (globals st) /\
  df (globals (snd (classify st))) = df (globals st) /\
  df (globals (snd (summarizeNumeric rest st))) = df (globals st) /\
  df (globals (snd (cell6 rest st))) = df (globals st) /\
  df (globals (snd (cell7 rest st))) = df (globals st) /\
  df (globals (snd (describeTable rest st))) = df (globals st).
Proof.
  assert (Hrun : forall s, df (globals (snd (run rest cells s))) = df (globals s)).
  { intros s. destruct (run_determined rest cells s s eq_refl) as (_ & H & _).
    exact H. }
  assert (Hcell : forall c s, df (globals (snd (cell rest c s))) = df (globals s)).
  { intros c s. destruct (cell_determined rest c s s eq_refl) as (_ & H & _).
    exact H. }
  assert (H1 : df (globals (snd (cell1 st))) = Some employee_frame).
  { destruct st as [[e f dc cc kc dp] out]. reflexivity. }
  split; [exact H1 |].
  split; [now rewrite Hrun |].
  split; [apply Hrun |].
  split; [apply (Hcell Cell3) |].
  split; [apply (Hcell Cell5) |].
  split; [apply (Hcell Cell6) |].
  split; [apply (Hcell Cell7) |].
  destruct (describeTable_determined rest st st eq_refl) as (_ & H & _). exact H.
Qed.

(** ** The recorded run *)

(** Cell 1 binds the frame of ten rows and seven columns and prints its
    shape and its column names. *)
Lemma cell1_employee :
  fst (cell1 initial) = Ok tt /\
  shape employee_frame = (10%nat, 7%nat) /\
  well_formed employee_frame /\
  written cell1 initial =
    [ [Text "Employee Dataset:"];
      [OfFrame employee_frame];
      [Text (nl ++ "Dataset Shape: "); OfShape (10%nat, 7%nat)];
      [Text "Columns: ";
       OfList ["employee_id"; "name"; "department"; "years_experience";
               "salary"; "education_level"; "performance_rating"]] ].
Proof.
  repeat split; vm_compute; reflexivity.
Qed.

(** Cell 4 prints the range 2 to 15 and the average 7.1. *)
Lemma cell4_employee (rest : Rest) :
  fst (cell4 rest loaded) = Ok tt /\
  written (cell4 rest) loaded =
    [ [Text (nl ++ "Years of Experience Statistics:")];
      [Text (tab ++ "Range: "); OfScalar (SInt I64 2); Text " to ";
       OfScalar (SInt I64 15); Text " years"];
      [Text (tab ++ "Average: 7.1 years")] ].
Proof.
  split; vm_compute; reflexivity.
Qed.

(** The whole notebook, cell after cell from the empty namespace, runs to
    the end without an exception. *)
Lemma notebook_completes (rest : Rest) :
  fst (bind cell1 (fun _ => run rest [Cell2; Cell3; Cell4; Cell5; Cell6; Cell7])
         initial) = Ok tt.
Proof.
  vm_compute. reflexivity.
Qed.

(** On the two numeric columns that the claims quote, numpy's summation in
    eight lanes gives the very same sum as the summation from left to
    right; on a column of eight rows of which the first is 2^53 and the
    others are 1, it does not. *)
Lemma summation_order :
  exists salary,
    option_map (fun s => numeric_values (values s))
               (match getitem employee_frame "salary" with
                | Ok s => Some s
                | Raise _ => None
                end) = Some (Some salary) /\
    sum F64 salary = sum_sequential F64 salary /\
    sum F64 (map (of_Z F64) years_experience)
      = sum_sequential F64 (map (of_Z F64) years_experience) /\
    sum F64 (map (of_Z F64) [9007199254740992; 1; 1; 1; 1; 1; 1; 1])
      = of_Z F64 9007199254740998 /\
    sum_sequential F64 (map (of_Z F64) [9007199254740992; 1; 1; 1; 1; 1; 1; 1])
      = of_Z F64 9007199254740992.
Proof.
  eexists. split; [vm_compute; reflexivity |].
  repeat split; vm_compute; reflexivity.
Qed.

(* ================================================================== *)
(** * Further properties of the cells *)
(* ================================================================== *)

Ltac lines := repeat rewrite <- app_assoc; reflexivity.

Lemma written_of {A} (m : NB A) (st : state) (out : list line) :
  stdout (snd (m st)) = (stdout st ++ out)%list -> written m st = out.
Proof.
  intros H. unfold written. now rewrite H, skipn_app, skipn_all, Nat.sub_diag.
Qed.

(** ** Running a cell too early or on a frame without its column *)

(** X1.  An analysis cell run while [df] is unbound (before cell 1) prints
    its heading lines, raises [NameError] for [df] and binds nothing. *)
Theorem cell_needs_df (rest : Rest) (c : analysis) (st : state) :
  df (globals st) = None ->
  fst (cell rest c st) = Raise (NameError "df") /\
  written (cell rest c) st = preamble c /\
  globals (snd (cell rest c st)) = globals st.
Proof.
  destruct st as [[e f dc cc kc dp] out]. simpl. intros ->.
  destruct c; (split; [reflexivity |]); (split; [| reflexivity]);
    apply written_of; simpl; lines.
Qed.

Lemma cell_needs_df_witness :
  fst (cell rejecting Cell5 initial) = Raise (NameError "df") /\
  written (cell rejecting Cell5) initial = preamble Cell5 /\
  globals (snd (cell rejecting Cell5 initial)) = globals initial.
Proof.
  apply (cell_needs_df rejecting Cell5 initial). reflexivity.
Defined.

Lemma getitem_missing (d : DataFrame) (key : string) :
  mem key (columns d) = false -> getitem d key = Raise (KeyError key).
Proof.
  induction d as [| s d IH]; simpl; [reflexivity |].
  rewrite String.eqb_sym. destruct (String.eqb (name s) key); simpl;
    [discriminate | exact IH].
Qed.

Lemma cell_missing_run (rest : Rest) (c : analysis) (key : string)
      (st : state) (d : DataFrame) :
  first_column c = Some key ->
  df (globals st) = Some d ->
  getitem d key = Raise (KeyError key) ->
  cell rest c st
  = (Raise (KeyError key), mkState (globals st) (stdout st ++ preamble c)).
Proof.
  intros Hc Hdf Hget.
  destruct st as [[e f dc cc kc dp] out]. simpl in Hdf. subst f.
  destruct c; simpl in Hc; try discriminate; injection Hc as <-;
    unfold cell, cell4, cell5, cell6, cell7, column, bind, print, load_df, load,
      call; simpl; rewrite Hget; simpl; do 2 f_equal; lines.
Qed.

(** X2.  A cell that reads a column by name, run on a frame without that
    column, prints its heading lines, raises [KeyError] for the column and
    binds nothing. *)
Theorem cell_needs_column (rest : Rest) (c : analysis) (key : string)
        (st : state) (d : DataFrame) :
  first_column c = Some key ->
  df (globals st) = Some d ->
  mem key (columns d) = false ->
  fst (cell rest c st) = Raise (KeyError key) /\
  written (cell rest c) st = preamble c /\
  globals (snd (cell rest c st)) = globals st.
Proof.
  intros Hc Hdf Hmem. apply getitem_missing in Hmem.
  pose proof (cell_missing_run rest c key st d Hc Hdf Hmem) as Hrun.
  split; [now rewrite Hrun |]. split; [| now rewrite Hrun].
  apply written_of. now rewrite Hrun.
Qed.

Lemma cell_needs_column_witness :
  fst (cell rejecting Cell6 (with_df mixed_frame)) = Raise (KeyError "department") /\
  written (cell rejecting Cell6) (with_df mixed_frame) = preamble Cell6 /\
  globals (snd (cell rejecting Cell6 (with_df mixed_frame)))
    = globals (with_df mixed_frame).
Proof.
  apply (cell_needs_column rejecting Cell6 "department" (with_df mixed_frame)
           mixed_frame); reflexivity.
Defined.

(** ** Column access *)

Lemma getitem_found (d : DataFrame) (key : string) (s : Series) :
  getitem d key = Ok s -> In s d /\ name s = key.
Proof.
  induction d as [| a d IH]; simpl; [discriminate |].
  destruct (String.eqb (name a) key) eqn:E.
  - intros [= ->]. apply String.eqb_eq in E. auto.
  - intros H. destruct (IH H). auto.
Qed.

(** X3.  On a frame with distinct column names, [df[key]] returns a column
    exactly when it is the column of the frame with that name, and raises
    [KeyError] for the key exactly when no column has that name. *)
Theorem getitem_lookup (d : DataFrame) (key : string) (s : Series) :
  distinct (columns d) = true ->
  (getitem d key = Ok s <-> In s d /\ name s = key) /\
  (getitem d key = Raise (KeyError key) <-> mem key (columns d) = false).
Proof.
  intros Hd. apply distinct_NoDup in Hd. split; split.
  - apply getitem_found.
  - intros [Hs <-]. induction d as [| a d IH]; simpl in *; [tauto |].
    destruct (String.eqb (name a) (name s)) eqn:E.
    + apply String.eqb_eq in E. f_equal.
      apply (column_of_name (a :: d) a s Hd); simpl; auto.
    + destruct Hs as [-> | Hs]; [now rewrite String.eqb_refl in E |].
      apply IH; [now inversion Hd | exact Hs].
  - intros H. destruct (mem key (columns d)) eqn:E; [| reflexivity].
    apply mem_In, in_map_iff in E. destruct E as (t & Ht & Hin).
    clear Hd. induction d as [| a d IH]; simpl in *; [tauto |].
    destruct (String.eqb (name a) key) eqn:Ea; [discriminate |].
    destruct Hin as [-> | Hin]; [apply String.eqb_neq in Ea; congruence |].
    now apply IH.
  - apply getitem_missing.
Qed.

Lemma getitem_lookup_witness :
  (getitem mixed_frame "age" = Ok (mkSeries "age" (IntArray I16 [41; 29; 35]))
   <-> In (mkSeries "age" (IntArray I16 [41; 29; 35])) mixed_frame
       /\ name (mkSeries "age" (IntArray I16 [41; 29; 35])) = "age") /\
  (getitem mixed_frame "age" = Raise (KeyError "age")
   <-> mem "age" (columns mixed_frame) = false).
Proof.
  apply (getitem_lookup mixed_frame "age"). reflexivity.
Defined.

(** ** The frame of cell 1 *)

Lemma size_array_of_pylist (l : pylist) : size (array_of_pylist l) = pylen l.
Proof.
  destruct l as [[| x l] | [| x l] | [| x l]]; try reflexivity.
  unfold array_of_pylist.
  destruct (forallb fits_int64 (x :: l)); [reflexivity |].
  destruct (forallb fits_uint64 (x :: l)); reflexivity.
Qed.

(** X4.  [pd.DataFrame] on a dictionary of lists succeeds exactly when the
    lists have one length; the frame then has the keys as its columns, in
    the order of the dictionary, all columns have that length, and the
    shape is (length of the lists, number of keys).  Otherwise it raises
    [ValueError] and no frame is built. *)
Theorem DataFrame_of_dict_shape (d : dict) :
  match DataFrame_of_dict d with
  | Ok f =>
      same_length d = true /\
      columns f = map fst d /\
      rectangular f = true /\
      shape f = (match d with [] => O | kv :: _ => pylen (snd kv) end,
                 List.length d)
  | Raise e =>
      same_length d = false /\
      e = ValueError "All arrays must be of the same length"
  end.
Proof.
  unfold DataFrame_of_dict. destruct (same_length d) eqn:E; [| auto].
  split; [reflexivity |]. split; [| split].
  - unfold columns. rewrite map_map. reflexivity.
  - destruct d as [| [k l] d]; simpl in *; [reflexivity |].
    rewrite forallb_forall in *. intros t Ht.
    apply in_map_iff in Ht. destruct Ht as (kv & <- & Hkv). simpl.
    rewrite !size_array_of_pylist. exact (E kv Hkv).
  - destruct d as [| [k l] d]; [reflexivity |].
    unfold shape. cbn [map fst snd values List.length].
    now rewrite size_array_of_pylist, length_map.
Qed.



(** ** More on the classification *)

Lemma subseq_filter (p : Series -> bool) (d : DataFrame) :
  Subseq (columns (filter p d)) (columns d).
Proof.
  induction d as [| a d IH]; simpl; [constructor |].
  destruct (p a); simpl; now constructor.
Qed.

Lemma buckets_of_supported (d : DataFrame) :
  Permutation
    (columns (filter is_discrete d) ++ columns (filter is_continuous d)
       ++ columns (filter is_categorical d))
    (columns (filter is_supported d)).
Proof.
  induction d as [| s d IH]; simpl; [constructor |].
  unfold is_supported at 1. destruct (supported (dtype (values s))) eqn:E.
  - destruct (bucket_cases s E)
      as [(-> & -> & ->) | [(-> & -> & ->) | (-> & -> & ->)]]; simpl.
    + now constructor.
    + symmetry. apply Permutation_cons_app. now symmetry.
    + symmetry. rewrite app_assoc. apply Permutation_cons_app.
      rewrite <- app_assoc. now symmetry.
  - destruct (unsupported_cases s E) as (-> & -> & ->). exact IH.
Qed.

(** X6.  On any frame, whatever its dtypes, each bucket of cell 3 lists
    its names in the order of the frame's columns, and the three buckets
    together hold exactly the names of the columns of a supported dtype,
    each as often as the frame has it. *)
Theorem buckets_in_column_order (d : DataFrame) (st : state) :
  let bound := mkState (set_df d (globals st)) (stdout st) in
  exists st' D C K,
    classify bound = (Ok tt, st') /\
    classified st' D C K /\
    Subseq D (columns d) /\ Subseq C (columns d) /\ Subseq K (columns d) /\
    Permutation (D ++ C ++ K) (columns (filter is_supported d)).
Proof.
  intros bound. eexists _, _, _, _.
  split; [apply (cell3_run bound d); reflexivity |].
  split; [repeat split |].
  repeat split; try apply subseq_filter. apply buckets_of_supported.
Qed.

(** X7.  Run again on its own result, cell 3 leaves the namespace as its
    first run left it: the buckets are recomputed from the same frame. *)
Theorem classify_again (st : state) :
  globals (snd (classify (snd (classify st)))) = globals (snd (classify st)).
Proof.
  unfold classify. destruct (df (globals st)) as [d |] eqn:E.
  - rewrite (cell3_run st d E). cbn [snd].
    rewrite cell3_run with (d := d); reflexivity.
  - destruct st as [[e f dc cc kc dp] out]. simpl in E. subst f. reflexivity.
Qed.

(** ** What the cells bind and what they write *)

Lemma confined_bind (R : namespace -> namespace -> Prop) {A B}
      (m : NB A) (k : A -> NB B) :
  (forall x y z, R x y -> R y z -> R x z) ->
  confined R m -> (forall a, confined R (k a)) -> confined R (bind m k).
Proof.
  intros Htrans Hm Hk st. unfold bind. specialize (Hm st).
  destruct (m st) as [[a | e] st1]; simpl in *; [| exact Hm].
  exact (Htrans _ _ _ Hm (Hk a st1)).
Qed.

Lemma confined_pure (R : namespace -> namespace -> Prop) {A} (m : NB A) :
  (forall x, R x x) -> (forall st, globals (snd (m st)) = globals st) ->
  confined R m.
Proof.
  intros Hrefl H st. rewrite H. apply Hrefl.
Qed.

Lemma load_globals {A} (var : namespace -> option A) (id : string) (st : state) :
  globals (snd (load var id st)) = globals st.
Proof.
  unfold load. destruct (var (globals st)); reflexivity.
Qed.

Lemma column_globals {A} (key : string) (method : Series -> outcome A) (st : state) :
  globals (snd (column key method st)) = globals st.
Proof.
  unfold column, bind, load_df, load, call.
  destruct (df (globals st)) as [d |]; simpl; [| reflexivity].
  destruct (getitem d key); reflexivity.
Qed.

Ltac confined Htrans Hrefl :=
  repeat first
    [ apply confined_bind; [exact Htrans | | intros ?]
    | apply confined_pure;
      [ exact Hrefl
      | first [ apply column_globals | apply load_globals | reflexivity ] ] ].

Lemma same_but_buckets_refl (x : namespace) : same_but_buckets x x.
Proof. repeat split. Qed.

Lemma same_but_buckets_trans (x y z : namespace) :
  same_but_buckets x y -> same_but_buckets y z -> same_but_buckets x z.
Proof. unfold same_but_buckets. intuition congruence. Qed.

Lemma same_but_dept_counts_refl (x : namespace) : same_but_dept_counts x x.
Proof. repeat split. Qed.

Lemma same_but_dept_counts_trans (x y z : namespace) :
  same_but_dept_counts x y -> same_but_dept_counts y z -> same_but_dept_counts x z.
Proof. unfold same_but_dept_counts. intuition congruence. Qed.

(** X8.  Cells 2, 4, 5 and 7 bind no name: whether they complete or raise,
    the namespace is the one they started from.  Cell 3 changes at most its
    three bucket names and cell 6 at most [dept_counts]. *)
Theorem cells_bind_only_their_names (rest : Rest) (st : state) :
  globals (snd (cell2 rest st)) = globals st /\
  globals (snd (cell4 rest st)) = globals st /\
  globals (snd (cell5 rest st)) = globals st /\
  globals (snd (cell7 rest st)) = globals st /\
  same_but_buckets (globals st) (globals (snd (cell3 st))) /\
  same_but_dept_counts (globals st) (globals (snd (cell6 rest st))).
Proof.
  assert (Heq : forall x y z : namespace, x = y -> y = z -> x = z)
    by (intros; congruence).
  assert (H2 : confined eq (cell2 rest)) by (unfold cell2; confined Heq (@eq_refl namespace)).
  assert (H4 : confined eq (cell4 rest)) by (unfold cell4; confined Heq (@eq_refl namespace)).
  assert (H5 : confined eq (cell5 rest)) by (unfold cell5; confined Heq (@eq_refl namespace)).
  assert (H7 : confined eq (cell7 rest)) by (unfold cell7; confined Heq (@eq_refl namespace)).
  assert (H3 : confined same_but_buckets cell3).
  { unfold cell3.
    repeat first
      [ apply confined_bind; [exact same_but_buckets_trans | | intros ?]
      | apply confined_pure;
        [ exact same_but_buckets_refl
        | first [ apply column_globals | apply load_globals | reflexivity ] ]
      | (intros s; repeat split) ]. }
  assert (H6 : confined same_but_dept_counts (cell6 rest)).
  { unfold cell6.
    repeat first
      [ apply confined_bind; [exact same_but_dept_counts_trans | | intros ?]
      | apply confined_pure;
        [ exact same_but_dept_counts_refl
        | first [ apply column_globals | apply load_globals | reflexivity ] ]
      | (intros s; repeat split) ]. }
  repeat split; try (symmetry; first [apply H2 | apply H4 | apply H5 | apply H7]);
    first [apply H3 | apply H6].
Qed.

(** X9.  No run of analysis cells erases or rewrites what was printed
    before it: the standard output after the run is the output before it
    followed by the lines of the run, also when the run ends in an
    exception. *)
Theorem output_only_grows (rest : Rest) (cells : list analysis) (st : state) :
  exists out, stdout (snd (run rest cells st)) = (stdout st ++ out)%list
              /\ written (run rest cells) st = out.
Proof.
  destruct (run_determined rest cells st st eq_refl) as (_ & _ & _ & out & H & _).
  exists out. split; [exact H | now apply written_of].
Qed.

(** ** More on value counts *)

Lemma value_counts_perm (rest : Rest) (l : list string) :
  Permutation (value_counts_object rest l)
              (map (fun k => (k, occurrences l k)) (first_seen l)).
Proof.
  unfold value_counts_object.
  destruct (sort_values_descending_sorts rest (tally l)) as (_ & H).
  now rewrite <- tally_counts.
Qed.

Lemma value_counts_members (rest : Rest) (l : list string) (k : string) (n : nat) :
  In (k, n) (value_counts_object rest l) <-> In k l /\ n = occurrences l k.
Proof.
  split.
  - intros H. apply (Permutation_in _ (value_counts_perm rest l)) in H.
    apply in_map_iff in H. destruct H as (c & [= <- <-] & Hc).
    split; [now apply first_seen_In | reflexivity].
  - intros (Hk & ->). apply (Permutation_in _ (Permutation_sym (value_counts_perm rest l))).
    apply in_map_iff. exists k. split; [reflexivity | now apply first_seen_In].
Qed.

Lemma value_counts_NoDup (rest : Rest) (l : list string) :
  NoDup (value_counts_object rest l).
Proof.
  apply (NoDup_map_inv fst).
  apply (Permutation_NoDup
           (Permutation_map fst (Permutation_sym (value_counts_perm rest l)))).
  rewrite keys_of_counts. apply first_seen_NoDup.
Qed.

Lemma bump_total (k : string) (acc : list (string * nat)) :
  list_sum (map snd (bump k acc)) = S (list_sum (map snd acc)).
Proof.
  induction acc as [| [c n] acc IH]; simpl; [reflexivity |].
  destruct (String.eqb k c); simpl; [reflexivity |]. rewrite IH. lia.
Qed.

Lemma tally_total (l : list string) :
  list_sum (map snd (tally l)) = List.length l.
Proof.
  induction l as [| x l IH] using rev_ind; [reflexivity |].
  unfold tally in *. rewrite fold_left_app. simpl.
  rewrite bump_total, IH, length_app. simpl. lia.
Qed.

Lemma list_sum_perm (a b : list nat) :
  Permutation a b -> list_sum a = list_sum b.
Proof.
  induction 1; simpl; lia.
Qed.

(** X10.  The counts of [value_counts] add up to the number of rows of the
    column; every listed value has a count of at least 1; [nunique] is at
    most the number of rows; and the first pair is a most frequent value:
    no value of the column occurs more often. *)
Theorem value_counts_totals (rest : Rest) (l : list string) :
  let counts := value_counts_object rest l in
  list_sum (map snd counts) = List.length l /\
  Forall (fun e => (1 <= snd e)%nat) counts /\
  (nunique_object l <= List.length l)%nat /\
  match counts with
  | [] => l = []
  | top :: _ => forall k, (occurrences l k <= snd top)%nat
  end.
Proof.
  intros counts.
  destruct (sort_values_descending_sorts rest (tally l)) as (Hsorted & Hperm).
  fold (value_counts_object rest l) in Hsorted, Hperm. fold counts in Hsorted, Hperm.
  assert (Hsum : list_sum (map snd counts) = List.length l).
  { rewrite (list_sum_perm _ _ (Permutation_map snd Hperm)). apply tally_total. }
  assert (Hpos : Forall (fun e => (1 <= snd e)%nat) counts).
  { apply Forall_forall. intros [k n] H. apply value_counts_members in H.
    destruct H as (Hk & ->). simpl. unfold occurrences.
    apply (count_occ_In string_dec) in Hk. lia. }
  split; [exact Hsum |]. split; [exact Hpos |]. split.
  - unfold nunique_object. rewrite tally_counts, length_map.
    apply NoDup_incl_length; [apply first_seen_NoDup |].
    intros k Hk. now apply first_seen_In.
  - destruct counts as [| top others] eqn:E.
    + simpl in Hsum. symmetry in Hsum. now apply length_zero_iff_nil.
    + intros k. destruct (in_dec string_dec k l) as [Hk | Hk].
      * assert (Hin : In (k, occurrences l k) (top :: others))
          by (rewrite <- E; now apply value_counts_members).
        apply StronglySorted_inv in Hsorted. destruct Hsorted as (_ & Hall).
        destruct Hin as [-> | Hin]; [simpl; lia |].
        rewrite Forall_forall in Hall. exact (Hall _ Hin).
      * unfold occurrences. rewrite (proj1 (count_occ_not_In string_dec l k) Hk). lia.
Qed.

(** X11.  The order of the rows matters to [value_counts] only for the
    order of its pairs: a column with the same rows in another order has
    the same pairs, and the same [nunique]. *)
Theorem value_counts_row_order (rest : Rest) (l l' : list string) :
  Permutation l l' ->
  Permutation (value_counts_object rest l) (value_counts_object rest l') /\
  nunique_object l = nunique_object l'.
Proof.
  intros H.
  assert (Hp : Permutation (value_counts_object rest l) (value_counts_object rest l')).
  { apply NoDup_Permutation; try apply value_counts_NoDup.
    intros [k n]. rewrite !value_counts_members.
    assert (Ho : occurrences l k = occurrences l' k)
      by (unfold occurrences; now apply Permutation_count_occ).
    rewrite Ho. split; intros (Hk & ->); (split; [| reflexivity]).
    - exact (Permutation_in k H Hk).
    - exact (Permutation_in k (Permutation_sym H) Hk). }
  split; [exact Hp |].
  unfold nunique_object.
  rewrite <- (Permutation_length (proj2 (sort_values_descending_sorts rest (tally l)))).
  rewrite <- (Permutation_length (proj2 (sort_values_descending_sorts rest (tally l')))).
  exact (Permutation_length Hp).
Qed.

Lemma value_counts_row_order_witness :
  Permutation (value_counts_object rejecting department) (value_counts_object rejecting (rev department)) /\
  nunique_object department = nunique_object (rev department).
Proof.
  apply (value_counts_row_order rejecting department (rev department)).
  apply Permutation_rev.
Defined.

(** ** More on the numeric reductions *)

Lemma fold_min_spec (r : list Z) (x : Z) :
  In (fold_left Z.min r x) (x :: r) /\
  forall y, In y (x :: r) -> fold_left Z.min r x <= y.
Proof.
  revert x. induction r as [| a r IH]; intros x; simpl.
  - split; [auto |]. intros y [<- | []]. lia.
  - destruct (IH (Z.min x a)) as (Hin & Hle). split.
    + destruct Hin as [E | Hin]; [| auto].
      rewrite <- E. destruct (Z.min_spec x a) as [(_ & ->) | (_ & ->)]; auto.
    + intros y [<- | [<- | Hy]].
      * specialize (Hle (Z.min x a) (or_introl eq_refl)). lia.
      * specialize (Hle (Z.min x a) (or_introl eq_refl)). lia.
      * apply Hle. now right.
Qed.

Lemma fold_max_spec (r : list Z) (x : Z) :
  In (fold_left Z.max r x) (x :: r) /\
  forall y, In y (x :: r) -> y <= fold_left Z.max r x.
Proof.
  revert x. induction r as [| a r IH]; intros x; simpl.
  - split; [auto |]. intros y [<- | []]. lia.
  - destruct (IH (Z.max x a)) as (Hin & Hle). split.
    + destruct Hin as [E | Hin]; [| auto].
      rewrite <- E. destruct (Z.max_spec x a) as [(_ & ->) | (_ & ->)]; auto.
    + intros y [<- | [<- | Hy]].
      * specialize (Hle (Z.max x a) (or_introl eq_refl)). lia.
      * specialize (Hle (Z.max x a) (or_introl eq_refl)). lia.
      * apply Hle. now right.
Qed.

(** On an integer column with at least one row, [min] and [max]
    return integers of the column's width that are rows of the column and
    bound every row from below and from above. *)
Theorem int_min_max_bounds (rest : Rest) (label : string) (w : int_width)
        (x : Z) (l : list Z) :
  let s := mkSeries label (IntArray w (x :: l)) in
  exists lo hi,
    Series_min rest s = Ok (SInt w lo) /\
    Series_max rest s = Ok (SInt w hi) /\
    In lo (x :: l) /\ In hi (x :: l) /\
    forall y, In y (x :: l) -> lo <= y <= hi.
Proof.
  intros s.
  destruct (fold_min_spec l x) as (Hlo & Hmin).
  destruct (fold_max_spec l x) as (Hhi & Hmax).
  exists (fold_left Z.min l x), (fold_left Z.max l x).
  repeat split; try assumption; auto.
Qed.

(** ** More on [describe] *)

Lemma describe_numeric_names (d : DataFrame) :
  map fst (describe_numeric d) = columns (filter described d).
Proof.
  induction d as [| s d IH]; [reflexivity |].
  unfold describe_numeric in *. cbn [flat_map filter]. unfold described at 1.
  destruct (numeric_values (values s)); simpl; now rewrite IH.
Qed.

Lemma describe_numeric_rows (d : DataFrame) :
  Forall (fun c => List.length (snd c) = 8%nat) (describe_numeric d).
Proof.
  induction d as [| s d IH]; [constructor |].
  unfold describe_numeric in *. cbn [flat_map].
  destruct (numeric_values (values s)); simpl; [constructor; [reflexivity |] |];
    exact IH.
Qed.

(** X13.  On a frame of integer, [float64] and text columns with at least
    one numeric column, [describe] raises nothing and describes exactly the
    numeric columns, in the order of the frame, with the eight statistics
    count, mean, std, min, 25%, 50%, 75%, max each; text columns are left
    out.  On a frame without columns it raises [ValueError]. *)
Theorem describe_numeric_columns (rest : Rest) (d : DataFrame) :
  forallb (fun s => interpreted (values s)) d = true ->
  existsb described d = true ->
  (exists r,
     describe rest d = Ok r /\
     describe_index r = numeric_index /\
     map fst (describe_columns r) = columns (filter described d) /\
     Forall (fun c => List.length (snd c) = 8%nat) (describe_columns r)) /\
  describe rest []
  = Raise (ValueError "Cannot describe a DataFrame without columns").
Proof.
  intros Hint Hnum. split; [| reflexivity].
  assert (Hne : describe_numeric d <> []).
  { intros E. pose proof (describe_numeric_names d) as Hn. rewrite E in Hn.
    apply existsb_exists in Hnum. destruct Hnum as (s & Hs & Hd).
    assert (Hin : In (name s) (columns (filter described d)))
      by (apply in_map, filter_In; auto).
    rewrite <- Hn in Hin. exact Hin. }
  unfold describe. destruct d as [| s d]; [discriminate |].
  rewrite Hint.
  pose proof (describe_numeric_names (s :: d)) as Hn.
  pose proof (describe_numeric_rows (s :: d)) as Hr.
  destruct (describe_numeric (s :: d)) as [| c cols]; [congruence |].
  eexists. split; [reflexivity |]. simpl. auto.
Qed.

Lemma describe_numeric_columns_witness :
  (exists r,
     describe rejecting employee_frame = Ok r /\
     describe_index r = numeric_index /\
     map fst (describe_columns r) = columns (filter described employee_frame) /\
     Forall (fun c => List.length (snd c) = 8%nat) (describe_columns r)) /\
  describe rejecting []
  = Raise (ValueError "Cannot describe a DataFrame without columns").
Proof.
  apply (describe_numeric_columns rejecting employee_frame); vm_compute; reflexivity.
Defined.

(** ** The thousands separator of the [,.2f] format *)

Lemma strip_commas_app (a b : string) :
  strip_commas (a ++ b) = (strip_commas a ++ strip_commas b)%string.
Proof.
  induction a as [| c a IH]; simpl; [reflexivity |].
  destruct (Ascii.eqb c ","); simpl; now rewrite IH.
Qed.

Lemma strip_commas_group3 (s : string) : strip_commas (group3 s) = strip_commas s.
Proof.
  induction s as [| c s IH]; [reflexivity |].
  cbn [group3]. cbv zeta.
  destruct (Nat.eqb (String.length s mod 3) 0 && negb (Nat.eqb (String.length s) 0));
    cbn [strip_commas]; change (Ascii.eqb "," ",") with true; cbv iota;
    destruct (Ascii.eqb c ","); now rewrite IH.
Qed.

Lemma strip_commas_uint (u : Decimal.uint) :
  strip_commas (NilEmpty.string_of_uint u) = NilEmpty.string_of_uint u.
Proof.
  induction u; simpl; now rewrite ?IHu.
Qed.

Lemma strip_commas_digits (z : Z) : strip_commas (digits z) = digits z.
Proof.
  apply strip_commas_uint.
Qed.

Lemma strip_commas_nat_digits (z : Z) : strip_commas (nat_digits z) = nat_digits z.
Proof.
  destruct z; try apply strip_commas_digits. reflexivity.
Qed.

Lemma strip_commas_zeros (n : nat) : strip_commas (zeros n) = zeros n.
Proof.
  induction n as [| n IH]; simpl; now rewrite ?IH.
Qed.

Lemma strip_commas_fixed (d : nat) (neg : bool) (n : Z) :
  strip_commas (fixed_of_scaled true d neg n) = fixed_of_scaled false d neg n.
Proof.
  unfold fixed_of_scaled. cbv zeta iota beta.
  rewrite !strip_commas_app, strip_commas_group3, strip_commas_nat_digits.
  f_equal; [destruct neg; reflexivity |]. f_equal.
  destruct d as [| d]; [reflexivity |].
  rewrite strip_commas_app. unfold pad.
  rewrite strip_commas_app, strip_commas_zeros.
  destruct (n mod 10 ^ Z.of_nat (S d)); try rewrite strip_commas_digits; reflexivity.
Qed.

(** X14.  The comma of the [,.Nf] format only separates: for every float
    and every number of decimals, the text written with thousands
    separators, without its commas, is the text written without them. *)
Theorem commas_only_separate (d : nat) (x : float) :
  strip_commas (format_f true d x) = format_f false d x.
Proof.
  destruct x as [s | s | | s m e]; simpl.
  - apply strip_commas_fixed.
  - destruct s; reflexivity.
  - reflexivity.
  - apply strip_commas_fixed.
Qed.

(** ** Cells on columns of the kind they expect *)

Lemma numeric_reductions (rest : Rest) (s : Series) :
  numeric (values s) = true ->
  exists lo hi mean median range t1 t2 t3 t4 t5,
    Series_min rest s = Ok lo /\
    Series_max rest s = Ok hi /\
    Series_mean rest s = Ok mean /\
    Series_median rest s = Ok median /\
    scalar_sub rest hi lo = Ok range /\
    format_scalar rest true 2 lo = Ok t1 /\
    format_scalar rest true 2 hi = Ok t2 /\
    format_scalar rest true 2 mean = Ok t3 /\
    format_scalar rest true 2 median = Ok t4 /\
    format_scalar rest true 2 range = Ok t5.
Proof.
  destruct s as [n [w l | w l | l | r l]]; intros H; try discriminate.
  - destruct l as [| x l]; [| destruct w];
      do 10 eexists; repeat split; reflexivity.
  - destruct w; do 10 eexists; repeat split; reflexivity.
Qed.

(** X15.  On a frame whose [salary] column is numeric (integers or floats
    of any width, with or without rows), the salary cell raises nothing
    and prints its two headings and the five statistics, one per line. *)
Theorem salary_cell_completes (rest : Rest) (st : state) (d : DataFrame) (s : Series) :
  df (globals st) = Some d ->
  getitem d "salary" = Ok s ->
  numeric (values s) = true ->
  exists lo hi mean median range,
    fst (cell5 rest st) = Ok tt /\
    written (cell5 rest) st = salary_report lo hi mean median range.
Proof.
  intros Hdf Hget Hnum.
  destruct (numeric_reductions rest s Hnum)
    as (lo & hi & mean & median & range & t1 & t2 & t3 & t4 & t5
        & Hlo & Hhi & Hmean & Hmed & Hsub & F1 & F2 & F3 & F4 & F5).
  exists t1, t2, t3, t4, t5.
  assert (Hrun : cell5 rest st
                 = (Ok tt, mkState (globals st)
                             (stdout st ++ salary_report t1 t2 t3 t4 t5))).
  { destruct st as [g out]. simpl in Hdf. unfold cell5, bind, print, call. simpl.
    repeat (first [ rewrite (column_run _ _ _ d s) by (simpl; assumption)
                  | rewrite Hlo | rewrite Hhi | rewrite Hmean | rewrite Hmed
                  | rewrite Hsub | rewrite F1 | rewrite F2 | rewrite F3
                  | rewrite F4 | rewrite F5 ];
            cbv beta iota).
    simpl. do 2 f_equal. lines. }
  split; [now rewrite Hrun |]. apply written_of. now rewrite Hrun.
Qed.

Lemma salary_cell_completes_witness :
  exists lo hi mean median range,
    fst (cell5 rejecting (with_df [salaries_ascending])) = Ok tt /\
    written (cell5 rejecting) (with_df [salaries_ascending])
    = salary_report lo hi mean median range.
Proof.
  apply (salary_cell_completes rejecting (with_df [salaries_ascending])
           [salaries_ascending] salaries_ascending); reflexivity.
Defined.

Lemma nunique_is_length (rest : Rest) (l : list string) :
  nunique_object l = List.length (value_counts_object rest l).
Proof.
  unfold nunique_object, value_counts_object. symmetry.
  apply Permutation_length.
  exact (proj2 (sort_values_descending_sorts rest (tally l))).
Qed.

(** X16.  On a frame whose [department] column is text, cell 6 raises
    nothing, binds [dept_counts] to the value counts of the column, prints
    them, and the number of unique departments it prints is the number of
    rows of the table it printed. *)
Theorem department_cell_on_text (rest : Rest) (st : state) (d : DataFrame)
        (s : Series) (l : list string) :
  df (globals st) = Some d ->
  getitem d "department" = Ok s ->
  values s = ObjectArray l ->
  fst (cell6 rest st) = Ok tt /\
  written (cell6 rest) st = department_report (value_counts_object rest l) /\
  dept_counts (globals (snd (cell6 rest st)))
  = Some (map (fun kn => (SStr (fst kn), snd kn)) (value_counts_object rest l)).
Proof.
  intros Hdf Hget Hval.
  assert (Hvc : Series_value_counts rest s
                = Ok (map (fun kn => (SStr (fst kn), snd kn)) (value_counts_object rest l)))
    by (unfold Series_value_counts; now rewrite Hval).
  assert (Hnu : Series_nunique rest s = Ok (List.length (value_counts_object rest l)))
    by (unfold Series_nunique; now rewrite Hval, (nunique_is_length rest)).
  assert (Hrun : cell6 rest st
                 = (Ok tt,
                    mkState
                      (set_dept_counts
                         (map (fun kn => (SStr (fst kn), snd kn)) (value_counts_object rest l))
                         (globals st))
                      (stdout st ++ department_report (value_counts_object rest l)))).
  { destruct st as [g out]. simpl in Hdf.
    unfold cell6, bind, print, call, assign, load. simpl.
    repeat (first [ rewrite (column_run _ _ _ d s) by (simpl; assumption)
                  | rewrite Hvc | rewrite Hnu ];
            cbv beta iota).
    simpl. do 2 f_equal. lines. }
  split; [now rewrite Hrun |]. split; [| now rewrite Hrun].
  apply written_of. now rewrite Hrun.
Qed.

Lemma department_cell_on_text_witness :
  fst (cell6 rejecting loaded) = Ok tt /\
  written (cell6 rejecting) loaded = department_report (value_counts_object rejecting department) /\
  dept_counts (globals (snd (cell6 rejecting loaded)))
  = Some (map (fun kn => (SStr (fst kn), snd kn)) (value_counts_object rejecting department)).
Proof.
  apply (department_cell_on_text rejecting loaded employee_frame
           (mkSeries "department" (ObjectArray department)) department);
    reflexivity.
Defined.

(** X17.  Cell 7 on a frame that has a text [education_level] column but no
    [performance_rating] column prints the education distribution and the
    heading of the next one, and only then raises [KeyError] for
    [performance_rating]: what was printed stays printed, and nothing is
    bound. *)
Theorem cell7_stops_at_missing_rating (rest : Rest) (st : state) (d : DataFrame)
        (s : Series) (l : list string) :
  df (globals st) = Some d ->
  getitem d "education_level" = Ok s ->
  values s = ObjectArray l ->
  mem "performance_rating" (columns d) = false ->
  fst (cell7 rest st) = Raise (KeyError "performance_rating") /\
  written (cell7 rest) st =
    [ [Text "Ordinal Categorical Data Analysis:"];
      [Text (nl ++ "Education Level Distribution:")];
      [OfCounts (map (fun kn => (SStr (fst kn), snd kn)) (value_counts_object rest l))];
      [Text (nl ++ "Performance Rating Distribution:")] ] /\
  globals (snd (cell7 rest st)) = globals st.
Proof.
  intros Hdf Hget Hval Hmem. apply getitem_missing in Hmem.
  assert (Hvc : Series_value_counts rest s
                = Ok (map (fun kn => (SStr (fst kn), snd kn)) (value_counts_object rest l)))
    by (unfold Series_value_counts; now rewrite Hval).
  assert (Hrun : cell7 rest st
                 = (Raise (KeyError "performance_rating"),
                    mkState (globals st)
                      (stdout st ++
                       [ [Text "Ordinal Categorical Data Analysis:"];
                         [Text (nl ++ "Education Level Distribution:")];
                         [OfCounts (map (fun kn => (SStr (fst kn), snd kn))
                                        (value_counts_object rest l))];
                         [Text (nl ++ "Performance Rating Distribution:")] ]))).
  { destruct st as [g out]. simpl in Hdf.
    unfold cell7, bind, print, call. simpl.
    rewrite (column_run _ _ _ d s) by (simpl; assumption).
    rewrite Hvc. cbv beta iota.
    unfold column, bind, load_df, load, call. simpl. rewrite Hdf, Hmem.
    simpl. do 2 f_equal. lines. }
  split; [now rewrite Hrun |]. split; [| now rewrite Hrun].
  apply written_of. now rewrite Hrun.
Qed.

Lemma cell7_stops_at_missing_rating_witness :
  fst (cell7 rejecting (with_df education_only))
  = Raise (KeyError "performance_rating") /\
  written (cell7 rejecting) (with_df education_only) =
    [ [Text "Ordinal Categorical Data Analysis:"];
      [Text (nl ++ "Education Level Distribution:")];
      [OfCounts (map (fun kn => (SStr (fst kn), snd kn))
                     (value_counts_object rejecting education_level))];
      [Text (nl ++ "Performance Rating Distribution:")] ] /\
  globals (snd (cell7 rejecting (with_df education_only)))
  = globals (with_df education_only).
Proof.
  apply (cell7_stops_at_missing_rating rejecting (with_df education_only)
           education_only
           (mkSeries "education_level" (ObjectArray education_level))
           education_level);
    reflexivity.
Defined.



(** ** The classification reads dtypes only *)

Lemma bucket_from_dtypes (include : list string) (d : DataFrame) :
  columns (select_dtypes include d)
  = map fst (filter (fun nd => mem (snd nd) include) (dtypes d)).
Proof.
  unfold columns, select_dtypes, dtypes.
  induction d as [| s d IH]; simpl; [reflexivity |].
  destruct (mem (dtype (values s)) include); simpl; now rewrite IH.
Qed.

(** X19.  The classification depends on the names and dtypes of the columns
    and on nothing else: on two frames with the same dtype listing,
    whatever their rows, cell 3 gives the same result, prints the same
    lines and binds the same buckets. *)
Theorem classify_reads_dtypes_only (d d' : DataFrame) (st : state) :
  dtypes d = dtypes d' ->
  let s1 := mkState (set_df d (globals st)) (stdout st) in
  let s2 := mkState (set_df d' (globals st)) (stdout st) in
  fst (classify s1) = fst (classify s2) /\
  written classify s1 = written classify s2 /\
  discrete_cols (globals (snd (classify s1)))
    = discrete_cols (globals (snd (classify s2))) /\
  continuous_cols (globals (snd (classify s1)))
    = continuous_cols (globals (snd (classify s2))) /\
  categorical_cols (globals (snd (classify s1)))
    = categorical_cols (globals (snd (classify s2))).
Proof.
  intros H s1 s2.
  assert (E : forall include,
             columns (select_dtypes include d) = columns (select_dtypes include d'))
    by (intros include; now rewrite !bucket_from_dtypes, H).
  pose proof (E ["int64"; "int32"]) as E1.
  pose proof (E ["float64"; "float32"]) as E2.
  pose proof (E ["object"]) as E3.
  unfold select_dtypes in E1, E2, E3.
  unfold classify, written.
  rewrite (cell3_run s1 d eq_refl), (cell3_run s2 d' eq_refl).
  unfold is_discrete, is_continuous, is_categorical. cbn [fst snd globals stdout
    discrete_cols continuous_cols categorical_cols].
  rewrite E1, E2, E3. repeat split.
Qed.

Lemma classify_reads_dtypes_only_witness :
  let s1 := mkState (set_df [salaries_ascending] (globals initial)) (stdout initial) in
  let s2 := mkState (set_df [no_salaries] (globals initial)) (stdout initial) in
  fst (classify s1) = fst (classify s2) /\
  written classify s1 = written classify s2 /\
  discrete_cols (globals (snd (classify s1)))
    = discrete_cols (globals (snd (classify s2))) /\
  continuous_cols (globals (snd (classify s1)))
    = continuous_cols (globals (snd (classify s2))) /\
  categorical_cols (globals (snd (classify s1)))
    = categorical_cols (globals (snd (classify s2))).
Proof.
  apply (classify_reads_dtypes_only [salaries_ascending] [no_salaries] initial).
  reflexivity.
Defined.
